(** * sampctl, package [runtime]: loading the server settings

    A shallow embedding of [runtime/settings.go]: the [Config] struct, the
    loader ([ConfigFromDirectory], [ConfigFromJSON], [ConfigFromYAML],
    [NewConfigFromEnvironment]) and the reflection walk that overlays
    environment variables ([LoadEnvironmentVariables]).

    The Go standard library and the third-party packages the file calls are
    modelled in modules named after the packages ([strings], [strconv],
    [errors], [reflect], [json]); what cannot be written down from their
    documentation (the float parser, the JSON and YAML decoders, the path
    join) is a [Variable] of the section that uses it. *)

From Stdlib Require Import ZArith String Ascii.
From Stdlib Require Import Floats.SpecFloat.
From stdpp Require Import base strings list gmap.

(** ** Package [strings] *)

Module strings.

(** ASCII letters only: every struct tag of [Config] is ASCII.  Bytes
    outside [a-z] are kept (Go would map non-ASCII runes through
    [unicode.ToUpper]). *)
Definition upperByte (c : ascii) : ascii :=
  let n := nat_of_ascii c in
  if (97 <=? n)%nat && (n <=? 122)%nat then ascii_of_nat (n - 32) else c.

Fixpoint ToUpper (s : string) : string :=
  match s with
  | EmptyString => EmptyString
  | String c s' => String (upperByte c) (ToUpper s')
  end.

(** [splitFrom sep skip cur s]: [cur] is the piece being collected and
    [skip] the number of bytes of a separator still to be dropped. *)
Fixpoint splitFrom (sep : string) (skip : nat) (cur s : string) : list string :=
  match s with
  | EmptyString => [cur]
  | String c s' =>
      match skip with
      | S k => splitFrom sep k cur s'
      | O =>
          if String.prefix sep s
          then cur :: splitFrom sep (String.length sep - 1) EmptyString s'
          else splitFrom sep 0 (cur +:+ String c EmptyString) s'
      end
  end.

Fixpoint explode (s : string) : list string :=
  match s with
  | EmptyString => []
  | String c s' => String c EmptyString :: explode s'
  end.

(** [strings.Split(s, sep)].  With an empty separator Go splits after each
    UTF-8 sequence; here after each byte. *)
Definition Split (s sep : string) : list string :=
  match sep with
  | EmptyString => explode s
  | _ => splitFrom sep 0 EmptyString s
  end.

(** [strings.Contains(s, substr)]. *)
Fixpoint Contains (s substr : string) : bool :=
  String.prefix substr s ||
  match s with
  | EmptyString => false
  | String _ s' => Contains s' substr
  end.

End strings.

(** ** Package [strconv] *)

Module strconv.

Inductive sentinel := ErrSyntax | ErrRange.

(** [*strconv.NumError]: the failing function, the input and the reason. *)
Record NumError := mkNumError { Func : string; Num : string; Err : sentinel }.

Definition syntaxError (fn str : string) : NumError := mkNumError fn str ErrSyntax.
Definition rangeError (fn str : string) : NumError := mkNumError fn str ErrRange.

Definition oneOf (str : string) (cases : list string) : bool :=
  existsb (String.eqb str) cases.

(** [strconv.ParseBool]: a fixed list of spellings; anything else is
    [(false, syntax error)]. *)
Definition ParseBool (str : string) : bool * option NumError :=
  if oneOf str ["1"; "t"; "T"; "true"; "TRUE"; "True"] then (true, None)
  else if oneOf str ["0"; "f"; "F"; "false"; "FALSE"; "False"] then (false, None)
  else (false, Some (syntaxError "ParseBool" str)).

(** Width of Go's [int] (64-bit platforms). *)
Definition IntSize : Z := 64.
Definition maxInt : Z := 2 ^ (IntSize - 1) - 1.
Definition minInt : Z := - 2 ^ (IntSize - 1).

Definition digit (c : ascii) : option Z :=
  let n := nat_of_ascii c in
  if (48 <=? n)%nat && (n <=? 57)%nat then Some (Z.of_nat (n - 48)) else None.

Fixpoint digits (s : string) (acc : Z) : option Z :=
  match s with
  | EmptyString => Some acc
  | String c s' =>
      match digit c with
      | Some d => digits s' (acc * 10 + d)
      | None => None
      end
  end.

(** [strconv.Atoi], that is [ParseInt(s, 10, 0)]: an optional sign and at
    least one decimal digit; a value outside [int] is clamped and reported
    as a range error. *)
Definition Atoi (s : string) : Z * option NumError :=
  let '(neg, body) :=
    match s with
    | String "-" r => (true, r)
    | String "+" r => (false, r)
    | _ => (false, s)
    end in
  match body with
  | EmptyString => (0%Z, Some (syntaxError "Atoi" s))
  | _ =>
      match digits body 0 with
      | None => (0%Z, Some (syntaxError "Atoi" s))
      | Some n =>
          let v := if neg then (- n)%Z else n in
          if (v <? minInt)%Z then (minInt, Some (rangeError "Atoi" s))
          else if (maxInt <? v)%Z then (maxInt, Some (rangeError "Atoi" s))
          else (v, None)
      end
  end.

End strconv.

(** ** Package [github.com/pkg/errors] *)

Module errors.

(** An [error] value: one made by [errors.New], one made by [errors.Wrap]
    around a cause, or one that comes from another package (the operating
    system, a decoder) and is known by its message only. *)
Inductive error :=
| fundamental (msg : string)
| withMessage (cause : error) (msg : string)
| foreign (msg : string).

Definition New (message : string) : error := fundamental message.

(** The callers only wrap a non-nil error. *)
Definition Wrap (err : error) (message : string) : error := withMessage err message.

Fixpoint Error (e : error) : string :=
  match e with
  | fundamental msg => msg
  | withMessage cause msg => msg +:+ ": " +:+ Error cause
  | foreign msg => msg
  end.

Fixpoint Cause (e : error) : error :=
  match e with
  | withMessage cause _ => Cause cause
  | _ => e
  end.

End errors.

(** ** Package [fmt] *)

Module fmt.

(** [fmt.Sprintf] for formats whose only verb is [%s]: each [%s] takes the
    next argument, a missing one prints as [%!s(MISSING)]. *)
Fixpoint Sprintf (format : string) (args : list string) : string :=
  match format with
  | String "%" (String "s" rest) =>
      match args with
      | a :: args' => a +:+ Sprintf rest args'
      | [] => "%!s(MISSING)" +:+ Sprintf rest []
      end
  | String c rest => String c (Sprintf rest args)
  | EmptyString => EmptyString
  end.

(** An argument handed to [fmt.Printf]. *)
Inductive Arg :=
| ArgString (s : string)
| ArgError (e : strconv.NumError).

(** What the program writes to standard output is kept as the list of the
    calls it made, oldest first. *)
Inductive Output :=
| Println (a : string)
| Printf (format : string) (args : list Arg).

(** The line feed that ends the warnings' format strings. *)
Definition nl : string := String "010" EmptyString.

End fmt.

(** ** Package [reflect] *)

Module reflect.

Inductive Kind := TBool | TInt | TFloat32 | TFloat64 | TString.

Definition KindString (k : Kind) : string :=
  match k with
  | TBool => "bool"
  | TInt => "int"
  | TFloat32 => "float32"
  | TFloat64 => "float64"
  | TString => "string"
  end.

(** The types that occur in [runtime/settings.go]. *)
Inductive GoType :=
| Basic (k : Kind)
| Named (pkg name : string)
| Ptr (elem : GoType)
| Slice (elem : GoType).

#[global] Instance Kind_eq_dec : EqDecision Kind.
Proof. solve_decision. Defined.

#[global] Instance GoType_eq_dec : EqDecision GoType.
Proof. solve_decision. Defined.

(** [Type.String()]: a defined type is qualified by its package name. *)
Fixpoint TypeString (t : GoType) : string :=
  match t with
  | Basic k => KindString k
  | Named pkg name => pkg +:+ "." +:+ name
  | Ptr elem => "*" +:+ TypeString elem
  | Slice elem => "[]" +:+ TypeString elem
  end.

(** A struct tag, as its [key:"value"] pairs in the order written. *)
Definition StructTag := list (string * string).

(** [StructTag.Get]: the value of the first pair with that key, or the
    empty string. *)
Fixpoint Get (tag : StructTag) (key : string) : string :=
  match tag with
  | [] => EmptyString
  | (k, v) :: tag' => if String.eqb k key then v else Get tag' key
  end.

Record StructField := mkStructField {
  Name : string;
  PkgPath : string;   (* empty for an exported field *)
  Type_ : GoType;
  Tag : StructTag
}.

Definition isExported (name : string) : bool :=
  match name with
  | String c _ => let n := nat_of_ascii c in (65 <=? n)%nat && (n <=? 90)%nat
  | EmptyString => false
  end.

(** A field declared in package [pkg]. *)
Definition declare (pkg name : string) (t : GoType) (tag : StructTag) : StructField :=
  mkStructField name (if isExported name then EmptyString else pkg) t tag.

(** [Value.CanSet] of a field reached through a pointer to the struct: the
    struct is addressable, so only an unexported field is read-only. *)
Definition CanSet (f : StructField) : bool := String.eqb (PkgPath f) EmptyString.

Definition float64 := spec_float.
Definition float32 := spec_float.

(** The conversion [float32(x)]: round to nearest even at 24 bits of
    precision, overflowing to an infinity. *)
Definition toFloat32 (x : float64) : float32 :=
  match x with
  | S754_finite s m e => binary_round 24 128 s m e
  | _ => x
  end.

Section Values.

(** The element type of [Config.Plugins].  Its declaration is in another
    file of the package; the walk never looks inside it. *)
Variable Plugin : Type.

(** The value of a field of [Config]: a pointer ([None] is nil) to a
    basic value, or a slice ([None] is the nil slice).  [PtrFloat64] is
    the type of [reflect.New] of a [float64]. *)
Inductive Value :=
| PtrString (p : option string)
| PtrInt (p : option Z)
| PtrBool (p : option bool)
| PtrFloat32 (p : option float32)
| PtrFloat64 (p : option float64)
| SliceString (s : option (list string))
| SlicePlugin (s : option (list Plugin)).

Definition TypeOf (v : Value) : GoType :=
  match v with
  | PtrString _ => Ptr (Basic TString)
  | PtrInt _ => Ptr (Basic TInt)
  | PtrBool _ => Ptr (Basic TBool)
  | PtrFloat32 _ => Ptr (Basic TFloat32)
  | PtrFloat64 _ => Ptr (Basic TFloat64)
  | SliceString _ => Slice (Basic TString)
  | SlicePlugin _ => Slice (Named "runtime" "Plugin")
  end.

Definition IsNil (v : Value) : bool :=
  match v with
  | PtrString None | PtrInt None | PtrBool None | PtrFloat32 None
  | PtrFloat64 None | SliceString None | SlicePlugin None => true
  | _ => false
  end.

(** [reflect.New(T)] for a basic [T]: a pointer to a fresh zero value. *)
Definition New (k : Kind) : Value :=
  match k with
  | TBool => PtrBool (Some false)
  | TInt => PtrInt (Some 0%Z)
  | TFloat32 => PtrFloat32 (Some (S754_zero false))
  | TFloat64 => PtrFloat64 (Some (S754_zero false))
  | TString => PtrString (Some EmptyString)
  end.

(** The result of an operation that assigns through a field handle: the
    new content of the field, or the value the operation panics with. *)
Inductive assigned :=
| Stored (v : Value)
| Panics (msg : string).

(** [fieldval.Set(x)] on a field of static type [t]: [x] must have
    exactly that type (none of the types here is an interface). *)
Definition Set_ (t : GoType) (x : Value) : assigned :=
  if decide (TypeOf x = t) then Stored x
  else Panics ("reflect.Set: value of type " +:+ TypeString (TypeOf x)
               +:+ " is not assignable to type " +:+ TypeString t).

(** What [Elem()] of a handle gives to a setter named [method]: nothing
    usable for a nil pointer or for a slice. *)
Definition badElem (method : string) (v : Value) : string :=
  match v with
  | SliceString _ | SlicePlugin _ => "reflect: call of reflect.Value.Elem on slice Value"
  | _ =>
      if IsNil v then "reflect: call of reflect.Value." +:+ method +:+ " on zero Value"
      else
        match TypeOf v with
        | Ptr elem => "reflect: call of reflect.Value." +:+ method +:+ " on "
                      +:+ TypeString elem +:+ " Value"
        | _ => EmptyString
        end
  end.

(** [fieldval.Elem().SetString(x)] *)
Definition Elem_SetString (x : string) (v : Value) : assigned :=
  match v with
  | PtrString (Some _) => Stored (PtrString (Some x))
  | _ => Panics (badElem "SetString" v)
  end.

(** [fieldval.Elem().SetBool(x)] *)
Definition Elem_SetBool (x : bool) (v : Value) : assigned :=
  match v with
  | PtrBool (Some _) => Stored (PtrBool (Some x))
  | _ => Panics (badElem "SetBool" v)
  end.

(** [fieldval.Elem().SetInt(x)]; [x] is an [int] widened to [int64], so
    storing it back into an [int] keeps it. *)
Definition Elem_SetInt (x : Z) (v : Value) : assigned :=
  match v with
  | PtrInt (Some _) => Stored (PtrInt (Some x))
  | _ => Panics (badElem "SetInt" v)
  end.

(** [fieldval.Elem().SetFloat(x)]: a [float32] target gets [float32(x)]. *)
Definition Elem_SetFloat (x : float64) (v : Value) : assigned :=
  match v with
  | PtrFloat32 (Some _) => Stored (PtrFloat32 (Some (toFloat32 x)))
  | PtrFloat64 (Some _) => Stored (PtrFloat64 (Some x))
  | _ => Panics (badElem "SetFloat" v)
  end.

End Values.

Arguments PtrString {Plugin} p.
Arguments PtrInt {Plugin} p.
Arguments PtrBool {Plugin} p.
Arguments PtrFloat32 {Plugin} p.
Arguments PtrFloat64 {Plugin} p.
Arguments SliceString {Plugin} s.
Arguments SlicePlugin {Plugin} s.
Arguments TypeOf {Plugin} v.
Arguments IsNil {Plugin} v.
Arguments New {Plugin} k.
Arguments Stored {Plugin} v.
Arguments Panics {Plugin} msg.
Arguments Set_ {Plugin} t x.
Arguments badElem {Plugin} method v.
Arguments Elem_SetString {Plugin} x v.
Arguments Elem_SetBool {Plugin} x v.
Arguments Elem_SetInt {Plugin} x v.
Arguments Elem_SetFloat {Plugin} x v.

End reflect.

(** ** Package [runtime]: the [Config] struct *)

(** [reflect.TypeOf(Config{})]: the fields of [Config] in the order they are
    declared, each with its name, its type and its tag.  A field is reached
    by its index, as [t.Field(i)] does. *)
Definition ConfigType : list reflect.StructField :=
  let field := reflect.declare "github.com/Southclaws/sampctl/runtime" in
  let pstring := reflect.Ptr (reflect.Basic reflect.TString) in
  let pint := reflect.Ptr (reflect.Basic reflect.TInt) in
  let pbool := reflect.Ptr (reflect.Basic reflect.TBool) in
  let pfloat32 := reflect.Ptr (reflect.Basic reflect.TFloat32) in
  let strings_ := reflect.Slice (reflect.Basic reflect.TString) in
  let plugins := reflect.Slice (reflect.Named "runtime" "Plugin") in
  [ field "dir" pstring [];
    field "Version" pstring [("json", "version,omitempty")];
    field "Endpoint" pstring [("json", "endpoint,omitempty")];
    field "Echo" pstring [("default", "-"); ("required", "0"); ("json", "echo,omitempty")];
    field "Gamemodes" strings_
      [("json", "gamemodes,omitempty"); ("cfg", "gamemode"); ("numbered", "1")];
    field "Filterscripts" strings_ [("required", "0"); ("json", "filterscripts,omitempty")];
    field "Plugins" plugins [("required", "0"); ("json", "plugins,omitempty")];
    field "RCONPassword" pstring [("required", "1"); ("json", "rcon_password,omitempty")];
    field "Port" pint [("default", "8192"); ("required", "0"); ("json", "port")];
    field "Hostname" pstring
      [("default", "SA-MP Server"); ("required", "0"); ("json", "hostname,omitempty")];
    field "MaxPlayers" pint [("default", "50"); ("required", "0"); ("json", "maxplayers")];
    field "Language" pstring [("default", "-"); ("required", "0"); ("json", "language,omitempty")];
    field "Mapname" pstring
      [("default", "San Andreas"); ("required", "0"); ("json", "mapname,omitempty")];
    field "Weburl" pstring
      [("default", "www.sa-mp.com"); ("required", "0"); ("json", "weburl,omitempty")];
    field "GamemodeText" pstring
      [("default", "Unknown"); ("required", "0"); ("json", "gamemodetext,omitempty")];
    field "Bind" pstring [("required", "0"); ("json", "bind,omitempty")];
    field "Password" pstring [("required", "0"); ("json", "password,omitempty")];
    field "Announce" pbool [("default", "1"); ("required", "0"); ("json", "announce,omitempty")];
    field "LANMode" pbool [("default", "0"); ("required", "0"); ("json", "lanmode,omitempty")];
    field "Query" pbool [("default", "1"); ("required", "0"); ("json", "query,omitempty")];
    field "RCON" pbool [("default", "0"); ("required", "0"); ("json", "rcon,omitempty")];
    field "LogQueries" pbool
      [("default", "0"); ("required", "0"); ("json", "logqueries,omitempty")];
    field "Sleep" pint [("default", "5"); ("required", "0"); ("json", "sleep,omitempty")];
    field "MaxNPC" pint [("default", "0"); ("required", "0"); ("json", "maxnpc,omitempty")];
    field "StreamRate" pint
      [("default", "1000"); ("required", "0"); ("json", "stream_rate,omitempty")];
    field "StreamDistance" pfloat32
      [("default", "200.0"); ("required", "0"); ("json", "stream_distance,omitempty")];
    field "OnFootRate" pint
      [("default", "30"); ("required", "0"); ("json", "onfoot_rate,omitempty")];
    field "InCarRate" pint
      [("default", "30"); ("required", "0"); ("json", "incar_rate,omitempty")];
    field "WeaponRate" pint
      [("default", "30"); ("required", "0"); ("json", "weapon_rate,omitempty")];
    field "ChatLogging" pbool
      [("default", "1"); ("required", "0"); ("json", "chatlogging,omitempty")];
    field "Timestamp" pbool
      [("default", "1"); ("required", "0"); ("json", "timestamp,omitempty")];
    field "NoSign" pstring [("required", "0"); ("json", "nosign,omitempty")];
    field "LogTimeFormat" pstring
      [("default", "[%H:%M:%S]"); ("required", "0"); ("json", "logtimeformat,omitempty")];
    field "MessageHoleLimit" pint
      [("default", "3000"); ("required", "0"); ("json", "messageholelimit,omitempty")];
    field "MessagesLimit" pint
      [("default", "500"); ("required", "0"); ("json", "messageslimit,omitempty")];
    field "AcksLimit" pint
      [("default", "3000"); ("required", "0"); ("json", "ackslimit,omitempty")];
    field "PlayerTimeout" pint
      [("default", "10000"); ("required", "0"); ("json", "playertimeout,omitempty")];
    field "MinConnectionTime" pint
      [("default", "0"); ("required", "0"); ("json", "minconnectiontime,omitempty")];
    field "LagCompmode" pint
      [("default", "1"); ("required", "0"); ("json", "lagcompmode,omitempty")];
    field "ConnseedTime" pint
      [("default", "300000"); ("required", "0"); ("json", "connseedtime,omitempty")];
    field "DBLogging" pbool
      [("default", "0"); ("required", "0"); ("json", "db_logging,omitempty")];
    field "DBLogQueries" pbool
      [("default", "0"); ("required", "0"); ("json", "db_log_queries,omitempty")];
    field "ConnectCookies" pbool
      [("default", "1"); ("required", "0"); ("json", "conncookies,omitempty")];
    field "CookieLogging" pbool
      [("default", "0"); ("required", "0"); ("json", "cookielogging,omitempty")];
    field "Output" pbool [("default", "1"); ("required", "0"); ("json", "output,omitempty")] ].

(** [t.FieldByName(name)]: the index of the first field with that name. *)
Definition FieldByName (name : string) : option nat :=
  fst <$> list_find (λ f, reflect.Name f = name) ConfigType.

(** The environment variable of a field: [SAMP_] and the upper-cased first
    comma-separated component of its [json] tag. *)
Definition EnvName (stype : reflect.StructField) : string :=
  "SAMP_" +:+ strings.ToUpper
    (hd EmptyString (strings.Split (reflect.Get (reflect.Tag stype) "json") ",")).

(** ** Package [encoding/json]: which fields are persisted *)

Module json.

(** The key under which [encoding/json] writes and reads a struct field:
    none for an unexported field or for the tag [-]; otherwise the tag's
    name, or the field's name when the tag gives none.  [ghodss/yaml]
    converts YAML to JSON and decodes with the same rule. *)
Definition fieldKey (f : reflect.StructField) : option string :=
  if negb (String.eqb (reflect.PkgPath f) EmptyString) then None
  else
    let tag := reflect.Get (reflect.Tag f) "json" in
    if String.eqb tag "-" then None
    else
      match hd EmptyString (strings.Split tag ",") with
      | EmptyString => Some (reflect.Name f)
      | name => Some name
      end.

End json.

(** ** Package [runtime]: the environment overlay and the loader *)

(** How a statement sequence ends: it runs to its end, or it panics with a
    value. *)
Inductive Completion (A : Type) :=
| Normal (a : A)
| Panic (v : string).

Arguments Normal {A} a.
Arguments Panic {A} v.

Section Settings.

Variable Plugin : Type.

Abbreviation Value := (reflect.Value Plugin).

(** A [Config] value as the reflection walk sees it, [v.Field(i)] being its
    [i]-th entry.  A value built by Go has one entry per field of
    [ConfigType], of that field's type ([WellTyped]). *)
Abbreviation Config := (list Value).

Definition WellTyped (cfg : Config) : Prop :=
  reflect.TypeOf <$> cfg = reflect.Type_ <$> ConfigType.

(** The zero value of a field type of [Config]. *)
Definition Zero (t : reflect.GoType) : option Value :=
  match t with
  | reflect.Ptr (reflect.Basic reflect.TString) => Some (reflect.PtrString None)
  | reflect.Ptr (reflect.Basic reflect.TInt) => Some (reflect.PtrInt None)
  | reflect.Ptr (reflect.Basic reflect.TBool) => Some (reflect.PtrBool None)
  | reflect.Ptr (reflect.Basic reflect.TFloat32) => Some (reflect.PtrFloat32 None)
  | reflect.Ptr (reflect.Basic reflect.TFloat64) => Some (reflect.PtrFloat64 None)
  | reflect.Slice (reflect.Basic reflect.TString) => Some (reflect.SliceString None)
  | reflect.Slice (reflect.Named "runtime" "Plugin") => Some (reflect.SlicePlugin None)
  | _ => None
  end.

(** [var cfg Config]: every pointer and every slice is nil. *)
Definition zeroConfig : Config :=
  default [] (mapM (λ f, Zero (reflect.Type_ f)) ConfigType).

(** *** The body of the loop, on one field

    [fieldval := v.Field(i)] is a handle on the [i]-th field: the body reads
    and assigns that field only, and prints.  A computation of the body
    takes the content of the field and gives its new content, what was
    printed, and how it ended. *)
Definition M (A : Type) : Type := Value → Value * list fmt.Output * Completion A.

#[local] Instance M_ret : MRet M := λ A a fieldval, (fieldval, [], Normal a).

#[local] Instance M_bind : MBind M := λ A B f m fieldval,
  let '(fieldval1, out1, r) := m fieldval in
  match r with
  | Normal a => let '(fieldval2, out2, r2) := f a fieldval1 in (fieldval2, out1 ++ out2, r2)
  | Panic v => (fieldval1, out1, Panic v)
  end.

Definition continue : M unit := mret ().

Definition panic {A} (v : string) : M A := λ fieldval, (fieldval, [], Panic v).

Definition Println (a : string) : M unit :=
  λ fieldval, (fieldval, [fmt.Println a], Normal ()).

Definition Printf (format : string) (args : list fmt.Arg) : M unit :=
  λ fieldval, (fieldval, [fmt.Printf format args], Normal ()).

Definition IsNil : M bool := λ fieldval, (fieldval, [], Normal (reflect.IsNil fieldval)).

(** An assignment through the handle: it stores, or panics and leaves the
    field as it is. *)
Definition assign (op : Value → reflect.assigned Plugin) : M unit :=
  λ fieldval,
    match op fieldval with
    | reflect.Stored fieldval' => (fieldval', [], Normal ())
    | reflect.Panics msg => (fieldval, [], Panic msg)
    end.

(** [fieldval.Set(x)] for the field described by [stype]. *)
Definition Set_ (stype : reflect.StructField) (x : Value) : M unit :=
  assign (λ _, reflect.Set_ (reflect.Type_ stype) x).

(** [strconv.ParseFloat(s, 64)]: the value and the error. *)
Variable ParseFloat : string → reflect.float64 * option strconv.NumError.

(** The [switch stype.Type.String()] statement of the loop's body, reached
    with the [value] of the field's environment variable. *)
Definition switchType (stype : reflect.StructField) (value : string) : M unit :=
  let kind := reflect.TypeString (reflect.Type_ stype) in
  if String.eqb kind "*string" then
    isNil ← IsNil;
    (if isNil : bool then Set_ stype (reflect.New reflect.TString) else mret ());;
    assign (reflect.Elem_SetString value)
  else if String.eqb kind "[]string" then
    (* todo: allow filterscripts and plugins via env vars *)
    Println "cannot set gamemode via environment variables yet"
  else if String.eqb kind "*bool" then
    let '(valueAsBool, err) := strconv.ParseBool value in
    match err with
    | Some e =>
        Printf ("warning: environment variable '%s' could not interpret value '%s' as boolean: %v" +:+ fmt.nl)
          [fmt.ArgString (reflect.Name stype); fmt.ArgString value; fmt.ArgError e]
    | None => mret ()
    end;;
    isNil ← IsNil;
    (if isNil : bool then Set_ stype (reflect.New reflect.TBool) else mret ());;
    assign (reflect.Elem_SetBool valueAsBool)
  else if String.eqb kind "*int" then
    let '(valueAsInt, err) := strconv.Atoi value in
    match err with
    | Some e =>
        Printf ("warning: environment variable '%s' could not interpret value '%s' as integer: %v" +:+ fmt.nl)
          [fmt.ArgString (reflect.Name stype); fmt.ArgString value; fmt.ArgError e];;
        continue
    | None =>
        isNil ← IsNil;
        (if isNil : bool then Set_ stype (reflect.New reflect.TInt) else mret ());;
        assign (reflect.Elem_SetInt valueAsInt)
    end
  else if String.eqb kind "*float32" then
    let '(valueAsFloat, err) := ParseFloat value in
    match err with
    | Some e =>
        Printf ("warning: environment variable '%s' could not interpret value '%s' as float: %v" +:+ fmt.nl)
          [fmt.ArgString (reflect.Name stype); fmt.ArgString value; fmt.ArgError e];;
        continue
    | None =>
        isNil ← IsNil;
        (* valueAsFloat is a float64, and so is the value allocated *)
        (if isNil : bool then Set_ stype (reflect.New reflect.TFloat64) else mret ());;
        assign (reflect.Elem_SetFloat valueAsFloat)
    end
  else panic (fmt.Sprintf "unknown kind '%s'" [kind]).

(** The process environment, [os.LookupEnv] being the lookup. *)
Variable env : gmap string string.

(** The body of the [for] loop of [LoadEnvironmentVariables]. *)
Definition overlayField (stype : reflect.StructField) : M unit :=
  if negb (reflect.CanSet stype) then continue
  else
    match strings.Split (reflect.Get (reflect.Tag stype) "json") "," with
    | [] => panic "runtime error: index out of range"
    | tagName :: _ =>
        let name := "SAMP_" +:+ strings.ToUpper tagName in
        match env !! name with
        | None => continue
        | Some value => switchType stype value
        end
    end.

(** *** The loop *)

(** The record and the output when the walk is over, and whether it
    returned or panicked.  The walk assigns in place: what it stored before
    a panic stays stored. *)
Inductive Outcome :=
| Returned (cfg : Config) (stdout : list fmt.Output)
| Panicked (v : string) (cfg : Config) (stdout : list fmt.Output).

Definition final (o : Outcome) : Config :=
  match o with
  | Returned cfg _ => cfg
  | Panicked _ cfg _ => cfg
  end.

Definition printed (o : Outcome) : list fmt.Output :=
  match o with
  | Returned _ out => out
  | Panicked _ _ out => out
  end.

Definition panicked (o : Outcome) : bool :=
  match o with
  | Returned _ _ => false
  | Panicked _ _ _ => true
  end.

(** One iteration: [v.Field(i)] and [t.Field(i)], then the body. *)
Definition iteration (t : list reflect.StructField) (i : nat) (cfg : Config)
  : Config * list fmt.Output * Completion unit :=
  match cfg !! i, t !! i with
  | Some fieldval, Some stype =>
      let '(fieldval', out, r) := overlayField stype fieldval in
      (<[i := fieldval']> cfg, out, r)
  | _, _ => (cfg, [], Panic "reflect: Field index out of range")
  end.

(** [for i := ...; i++] over [indices], with what was printed so
    far. *)
Fixpoint forRange (t : list reflect.StructField) (indices : list nat)
    (cfg : Config) (stdout : list fmt.Output) : Outcome :=
  match indices with
  | [] => Returned cfg stdout
  | i :: rest =>
      let '(cfg', out, r) := iteration t i cfg in
      match r with
      | Normal _ => forRange t rest cfg' (stdout ++ out)
      | Panic v => Panicked v cfg' (stdout ++ out)
      end
  end.

(** [func (cfg *Config) LoadEnvironmentVariables()] *)
Definition LoadEnvironmentVariables (cfg : Config) : Outcome :=
  let t := ConfigType in
  forRange t (seq 0 (length t)) cfg [].

End Settings.

(** The same outside the section. *)
Abbreviation Config Plugin := (list (reflect.Value Plugin)).

Arguments WellTyped {Plugin} cfg.
Arguments zeroConfig {Plugin}.
Arguments Returned {Plugin} cfg stdout.
Arguments Panicked {Plugin} v cfg stdout.
Arguments final {Plugin} o.
Arguments printed {Plugin} o.
Arguments panicked {Plugin} o.
Arguments switchType {Plugin} ParseFloat stype value _.
Arguments overlayField {Plugin} ParseFloat env stype _.
Arguments iteration {Plugin} ParseFloat env t i cfg.
Arguments forRange {Plugin} ParseFloat env t indices cfg stdout.
Arguments LoadEnvironmentVariables {Plugin} ParseFloat env cfg.

(** *** The loader *)

(** What a path of the file system holds: a file that can be read, or
    something whose reading fails (a directory, a file without read
    permission) with the error of the operating system. *)
Inductive Node :=
| Readable (contents : string)
| Unreadable (err : errors.error).

Section Loader.

Context {Plugin : Type}.

(** [filepath.Join(dir, name)] *)
Variable filepath_Join : string → string → string.

(** [json.Unmarshal(contents, &cfg)] and [yaml.Unmarshal(contents, &cfg)]:
    the record after decoding into it, and the error. *)
Variable json_Unmarshal yaml_Unmarshal :
  string → Config Plugin → Config Plugin * option errors.error.

Variable fs : gmap string Node.

(** Modelled from the spec: [util.Exists] is in package [util], outside the
    given sources; the spec calls it the on-disk file-existence check. *)
Definition Exists (path : string) : bool :=
  match fs !! path with
  | Some _ => true
  | None => false
  end.

(** [ioutil.ReadFile(filename)] *)
Definition ReadFile (filename : string) : string * option errors.error :=
  match fs !! filename with
  | Some (Readable contents) => (contents, None)
  | Some (Unreadable err) => (EmptyString, Some err)
  | None =>
      (EmptyString,
       Some (errors.foreign ("open " +:+ filename +:+ ": no such file or directory")))
  end.

(** [func ConfigFromJSON(file string) (cfg Config, err error)] *)
Definition ConfigFromJSON (file : string) : Config Plugin * option errors.error :=
  let cfg := zeroConfig in
  let '(contents, err) := ReadFile file in
  match err with
  | Some err => (cfg, Some (errors.Wrap err "failed to read samp.json"))
  | None =>
      let '(cfg, err) := json_Unmarshal contents cfg in
      match err with
      | Some err => (cfg, Some (errors.Wrap err "failed to unmarshal samp.json"))
      | None => (cfg, None)
      end
  end.

(** [func ConfigFromYAML(file string) (cfg Config, err error)] *)
Definition ConfigFromYAML (file : string) : Config Plugin * option errors.error :=
  let cfg := zeroConfig in
  let '(contents, err) := ReadFile file in
  match err with
  | Some err => (cfg, Some (errors.Wrap err "failed to read samp.json"))
  | None =>
      let '(cfg, err) := yaml_Unmarshal contents cfg in
      match err with
      | Some err => (cfg, Some (errors.Wrap err "failed to unmarshal samp.json"))
      | None => (cfg, None)
      end
  end.

(** [func ConfigFromDirectory(dir string) (cfg Config, err error)] *)
Definition ConfigFromDirectory (dir : string) : Config Plugin * option errors.error :=
  let jsonFile := filepath_Join dir "samp.json" in
  if Exists jsonFile then ConfigFromJSON jsonFile
  else
    let yamlFile := filepath_Join dir "samp.yaml" in
    if Exists yamlFile then ConfigFromYAML yamlFile
    else
      (zeroConfig,
       Some (errors.New "directory does not contain a samp.json or samp.yaml file")).

(** The assignment [cfg.<name> = x]. *)
Definition setField (name : string) (x : reflect.Value Plugin)
    (cfg : Config Plugin) : Config Plugin :=
  match FieldByName name with
  | Some i => <[i := x]> cfg
  | None => cfg
  end.

Variable ParseFloat : string → reflect.float64 * option strconv.NumError.
Variable env : gmap string string.

(** [func NewConfigFromEnvironment(dir string) (cfg Config, err error)]:
    what is printed, and the two results unless the overlay panics. *)
Definition NewConfigFromEnvironment (dir : string)
  : list fmt.Output * Completion (Config Plugin * option errors.error) :=
  let '(cfg, err) := ConfigFromDirectory dir in
  match err with
  | Some _ => ([], Normal (cfg, err))
  | None =>
      let cfg := setField "dir" (reflect.PtrString (Some dir)) cfg in
      (* Environment variables override samp.json *)
      match LoadEnvironmentVariables ParseFloat env cfg with
      | Returned cfg stdout => (stdout, Normal (cfg, None))
      | Panicked v _ stdout => (stdout, Panic v)
      end
  end.

End Loader.

(** *** Concrete collaborators for the examples

    The theorems below hold for every float parser, decoder and path join.
    The examples run the program with these. *)

(** A float parser that knows two strings: it agrees with
    [strconv.ParseFloat] on [1.5], on [200.0] and on every string that is
    not a number. *)
Definition sampleParseFloat (s : string) : reflect.float64 * option strconv.NumError :=
  if String.eqb s "1.5" then (S754_finite false 3 (-1), None)
  else if String.eqb s "200.0" then (S754_finite false 25 3, None)
  else (S754_zero false, Some (strconv.syntaxError "ParseFloat" s)).

(** The join of a clean, non-empty directory path and a file name. *)
Definition sampleJoin (dir name : string) : string := dir +:+ "/" +:+ name.

(** A decoder that accepts one document, which sets the port, and rejects
    every other with the message [msg]. *)
Definition sampleUnmarshal (document : string) (port : Z) (msg : string)
    (contents : string) (cfg : Config string)
  : Config string * option errors.error :=
  if String.eqb contents document
  then (setField "Port" (reflect.PtrInt (Some port)) cfg, None)
  else (cfg, Some (errors.foreign msg)).

(** The double quote, which a string literal cannot hold. *)
Definition dq : string := String "034" EmptyString.

Definition sampleJSON :=
  sampleUnmarshal ("{" +:+ dq +:+ "port" +:+ dq +:+ ": 7777}") 7777
    "unexpected end of JSON input".
Definition sampleYAML :=
  sampleUnmarshal "port: 8888" 8888 "yaml: did not find expected node content".

(** *** Definitions the statements use *)

(** The field types the [switch] has a case for. *)
Definition supported : list reflect.GoType :=
  [ reflect.Ptr (reflect.Basic reflect.TString);
    reflect.Slice (reflect.Basic reflect.TString);
    reflect.Ptr (reflect.Basic reflect.TBool);
    reflect.Ptr (reflect.Basic reflect.TInt);
    reflect.Ptr (reflect.Basic reflect.TFloat32) ].

(** The three warnings. *)
Definition warning (what : string) (stype : reflect.StructField) (value : string)
    (e : strconv.NumError) : fmt.Output :=
  fmt.Printf
    ("warning: environment variable '%s' could not interpret value '%s' as "
     +:+ what +:+ ": %v" +:+ fmt.nl)
    [fmt.ArgString (reflect.Name stype); fmt.ArgString value; fmt.ArgError e].

Definition warnings (what : string) (stype : reflect.StructField) (value : string)
    (err : option strconv.NumError) : list fmt.Output :=
  match err with
  | Some e => [warning what stype value e]
  | None => []
  end.

(** A record as a file with [port] 7777, [maxplayers] 50, [announce] true
    and [stream_distance] 200 decodes, and an environment with one good and
    two malformed values. *)
Definition fileConfig : Config string :=
  setField "Port" (reflect.PtrInt (Some 7777%Z))
    (setField "MaxPlayers" (reflect.PtrInt (Some 50%Z))
       (setField "Announce" (reflect.PtrBool (Some true))
          (setField "StreamDistance"
             (reflect.PtrFloat32 (Some (reflect.toFloat32 (S754_finite false 25 3))))
             zeroConfig))).

Definition sampleEnv : gmap string string :=
  {[ "SAMP_PORT" := "9999"; "SAMP_MAXPLAYERS" := "notanumber"; "SAMP_ANNOUNCE" := "yes" ]}.

(** A directory with a malformed [samp.json] beside a well-formed
    [samp.yaml], one with a malformed [samp.yaml] only, and one with a
    well-formed [samp.json] beside a [samp.yaml]. *)
Definition sampleFS : gmap string Node :=
  {[ "/srv/a/samp.json" := Readable "{";
     "/srv/a/samp.yaml" := Readable "port: 8888";
     "/srv/b/samp.yaml" := Readable "port: [";
     "/srv/c/samp.json" := Readable ("{" +:+ dq +:+ "port" +:+ dq +:+ ": 7777}");
     "/srv/c/samp.yaml" := Readable "port: 8888" ]}.

(** Unfolds the operations of the loop's body. *)
Ltac run_switch :=
  unfold switchType, continue, panic, Println, Printf, IsNil, Set_, assign,
    mbind, mret, M_bind, M_ret.

(** The descriptor of the field of index [i]. *)
Ltac field_at i :=
  let f := eval vm_compute in (ConfigType !! i) in
  match f with Some ?stype => exact stype end.

(** * Facts about the model *)

(** ** The library functions *)

(** [strings.Split] always gives a first component. *)
Lemma splitFrom_nonempty sep s : ∀ skip cur, strings.splitFrom sep skip cur s ≠ [].
Proof.
  induction s as [|c s IH]; intros skip cur; cbn [strings.splitFrom].
  - done.
  - destruct skip; [|apply IH].
    destruct (String.prefix sep (String c s)); [done|apply IH].
Qed.

Lemma Split_comma s : ∃ x rest, strings.Split s "," = x :: rest.
Proof.
  unfold strings.Split.
  destruct (strings.splitFrom "," 0 EmptyString s) eqn:E.
  - by apply splitFrom_nonempty in E.
  - eauto.
Qed.

(** A string [strconv.ParseBool] rejects parses as [false]. *)
Lemma ParseBool_rejected str :
  (strconv.ParseBool str).2 ≠ None → (strconv.ParseBool str).1 = false.
Proof.
  unfold strconv.ParseBool.
  destruct (strconv.oneOf str _); [done|].
  by destruct (strconv.oneOf str _).
Qed.

(** ** The [switch] statement, case by case *)

Section SwitchFacts.

Context {Plugin : Type}.
Variable ParseFloat : string → reflect.float64 * option strconv.NumError.

Abbreviation switch := (switchType (Plugin:=Plugin) ParseFloat).

Implicit Types (stype : reflect.StructField) (v : reflect.Value Plugin).

Lemma switchType_string stype value v :
  reflect.Type_ stype = reflect.Ptr (reflect.Basic reflect.TString) →
  reflect.TypeOf v = reflect.Type_ stype →
  switch stype value v = (reflect.PtrString (Some value), [], Normal ()).
Proof.
  intros Ht Hv. rewrite Ht in Hv. run_switch. rewrite Ht.
  by destruct v as [[?|]| | | | | |].
Qed.

Lemma switchType_strings stype value v :
  reflect.Type_ stype = reflect.Slice (reflect.Basic reflect.TString) →
  switch stype value v =
    (v, [fmt.Println "cannot set gamemode via environment variables yet"], Normal ()).
Proof. intros Ht. run_switch. by rewrite Ht. Qed.

Lemma switchType_bool stype value v :
  reflect.Type_ stype = reflect.Ptr (reflect.Basic reflect.TBool) →
  reflect.TypeOf v = reflect.Type_ stype →
  switch stype value v =
    (reflect.PtrBool (Some (strconv.ParseBool value).1),
     warnings "boolean" stype value (strconv.ParseBool value).2, Normal ()).
Proof.
  intros Ht Hv. rewrite Ht in Hv. run_switch. rewrite Ht.
  cbn [reflect.TypeString reflect.KindString String.eqb Ascii.eqb Bool.eqb String.append].
  destruct (strconv.ParseBool value) as [b [e|]];
    by destruct v as [|  |[?|]| | | |].
Qed.

Lemma switchType_int stype value v n :
  reflect.Type_ stype = reflect.Ptr (reflect.Basic reflect.TInt) →
  reflect.TypeOf v = reflect.Type_ stype →
  strconv.Atoi value = (n, None) →
  switch stype value v = (reflect.PtrInt (Some n), [], Normal ()).
Proof.
  intros Ht Hv Hn. rewrite Ht in Hv. run_switch. rewrite Ht, Hn.
  by destruct v as [|[?|]| | | | |].
Qed.

Lemma switchType_int_rejected stype value v n e :
  reflect.Type_ stype = reflect.Ptr (reflect.Basic reflect.TInt) →
  strconv.Atoi value = (n, Some e) →
  switch stype value v = (v, [warning "integer" stype value e], Normal ()).
Proof. intros Ht Hn. run_switch. by rewrite Ht, Hn. Qed.

Lemma switchType_float_rejected stype value v x e :
  reflect.Type_ stype = reflect.Ptr (reflect.Basic reflect.TFloat32) →
  ParseFloat value = (x, Some e) →
  switch stype value v = (v, [warning "float" stype value e], Normal ()).
Proof. intros Ht Hx. run_switch. by rewrite Ht, Hx. Qed.

Lemma switchType_float_present stype value x y :
  reflect.Type_ stype = reflect.Ptr (reflect.Basic reflect.TFloat32) →
  ParseFloat value = (x, None) →
  switch stype value (reflect.PtrFloat32 (Some y)) =
    (reflect.PtrFloat32 (Some (reflect.toFloat32 x)), [], Normal ()).
Proof. intros Ht Hx. run_switch. by rewrite Ht, Hx. Qed.

Lemma switchType_float_absent stype value x :
  reflect.Type_ stype = reflect.Ptr (reflect.Basic reflect.TFloat32) →
  ParseFloat value = (x, None) →
  switch stype value (reflect.PtrFloat32 None) =
    (reflect.PtrFloat32 None, [],
     Panic "reflect.Set: value of type *float64 is not assignable to type *float32").
Proof. intros Ht Hx. run_switch. by rewrite Ht, Hx. Qed.

Lemma switchType_plugins stype value v :
  reflect.Type_ stype = reflect.Slice (reflect.Named "runtime" "Plugin") →
  switch stype value v = (v, [], Panic "unknown kind '[]runtime.Plugin'").
Proof. intros Ht. run_switch. by rewrite Ht. Qed.

(** Whatever the field holds and whatever its type: running the statement
    on its own result stores the same content and ends the same way. *)
Lemma switchType_idem stype value v :
  let r := switch stype value v in
  (switch stype value r.1.1).1.1 = r.1.1 ∧ (switch stype value r.1.1).2 = r.2.
Proof.
  run_switch.
  repeat match goal with
         | |- context [if String.eqb ?a ?b then _ else _] => destruct (String.eqb a b)
         end; try done.
  - destruct v as [[?|]|[?|]|[?|]|[?|]|[?|]|[?|]|[?|]]; cbn; try done.
    all: unfold reflect.Set_; destruct (decide _); cbn; done.
  - destruct (strconv.ParseBool value) as [b [e|]].
    all: destruct v as [[?|]|[?|]|[?|]|[?|]|[?|]|[?|]|[?|]]; cbn; try done.
    all: unfold reflect.Set_; destruct (decide _); cbn; done.
  - destruct (strconv.Atoi value) as [b [e|]]; [done|].
    all: destruct v as [[?|]|[?|]|[?|]|[?|]|[?|]|[?|]|[?|]]; cbn; try done.
    all: unfold reflect.Set_; destruct (decide _); cbn; done.
  - destruct (ParseFloat value) as [b [e|]]; [done|].
    all: destruct v as [[?|]|[?|]|[?|]|[?|]|[?|]|[?|]|[?|]]; cbn; try done.
    all: unfold reflect.Set_; destruct (decide _); cbn; done.
Qed.

(** The statement never stores a nil where there was a value. *)
Lemma switchType_presence stype value v :
  reflect.IsNil v = false → reflect.IsNil (switch stype value v).1.1 = false.
Proof.
  intros Hv. run_switch.
  repeat match goal with
         | |- context [if String.eqb ?a ?b then _ else _] => destruct (String.eqb a b)
         end; try done.
  - by destruct v as [[?|]|[?|]|[?|]|[?|]|[?|]|[?|]|[?|]].
  - destruct (strconv.ParseBool value) as [b [e|]].
    all: by destruct v as [[?|]|[?|]|[?|]|[?|]|[?|]|[?|]|[?|]].
  - destruct (strconv.Atoi value) as [b [e|]]; [done|].
    by destruct v as [[?|]|[?|]|[?|]|[?|]|[?|]|[?|]|[?|]].
  - destruct (ParseFloat value) as [b [e|]]; [done|].
    by destruct v as [[?|]|[?|]|[?|]|[?|]|[?|]|[?|]|[?|]].
Qed.

End SwitchFacts.

(** ** The body of the loop *)

Section BodyFacts.

Context {Plugin : Type}.
Variable ParseFloat : string → reflect.float64 * option strconv.NumError.
Variable env : gmap string string.

Abbreviation body := (overlayField (Plugin:=Plugin) ParseFloat env).

Implicit Types (stype : reflect.StructField) (v : reflect.Value Plugin).

Lemma overlayField_unexported stype v :
  reflect.CanSet stype = false → body stype v = (v, [], Normal ()).
Proof. intros H. unfold overlayField. by rewrite H. Qed.

Lemma overlayField_unset stype v :
  env !! EnvName stype = None → body stype v = (v, [], Normal ()).
Proof.
  intros H. unfold overlayField. destruct (negb _); [done|].
  unfold EnvName in H.
  destruct (Split_comma (reflect.Get (reflect.Tag stype) "json")) as (x & rest & E).
  rewrite E in H |- *. cbn [hd] in H. by rewrite H.
Qed.

Lemma overlayField_set stype value v :
  reflect.CanSet stype = true → env !! EnvName stype = Some value →
  body stype v = switchType ParseFloat stype value v.
Proof.
  intros Hc H. unfold overlayField. rewrite Hc. cbn [negb].
  unfold EnvName in H.
  destruct (Split_comma (reflect.Get (reflect.Tag stype) "json")) as (x & rest & E).
  rewrite E in H |- *. cbn [hd] in H. by rewrite H.
Qed.

(** Every field is skipped or reaches the [switch]. *)
Lemma overlayField_cases stype v :
  body stype v = (v, [], Normal ()) ∨
  ∃ value, reflect.CanSet stype = true ∧ env !! EnvName stype = Some value ∧
           body stype v = switchType ParseFloat stype value v.
Proof.
  destruct (reflect.CanSet stype) eqn:Hc.
  - destruct (env !! EnvName stype) as [value|] eqn:H.
    + right. exists value. eauto using overlayField_set.
    + left. by apply overlayField_unset.
  - left. by apply overlayField_unexported.
Qed.

Lemma overlayField_idem stype v :
  (body stype (body stype v).1.1).1.1 = (body stype v).1.1 ∧
  (body stype (body stype v).1.1).2 = (body stype v).2.
Proof.
  destruct (overlayField_cases stype v) as [E|(value & Hc & Hv & E)].
  - rewrite E. cbn. by rewrite E.
  - rewrite E. rewrite (overlayField_set _ value) by done.
    apply switchType_idem.
Qed.

Lemma overlayField_presence stype v :
  reflect.IsNil v = false → reflect.IsNil (body stype v).1.1 = false.
Proof.
  intros Hn. destruct (overlayField_cases stype v) as [E|(value & Hc & Hv & E)];
    rewrite E; [done|]. by apply switchType_presence.
Qed.

(** ** The loop *)

Abbreviation loop := (forRange (Plugin:=Plugin) ParseFloat env).
Abbreviation step := (iteration (Plugin:=Plugin) ParseFloat env).

Implicit Types (t : list reflect.StructField) (cfg : Config Plugin).

(** An iteration, when both [v.Field(i)] and [t.Field(i)] exist. *)
Lemma iteration_field t i cfg stype v :
  t !! i = Some stype → cfg !! i = Some v →
  step t i cfg = (<[i := (body stype v).1.1]> cfg, (body stype v).1.2, (body stype v).2).
Proof.
  intros Ht Hv. unfold iteration. rewrite Ht, Hv.
  by destruct (body stype v) as [[? ?] ?].
Qed.

Lemma iteration_no_field t i cfg :
  t !! i = None ∨ cfg !! i = None →
  step t i cfg = (cfg, [], Panic "reflect: Field index out of range").
Proof.
  unfold iteration. intros [H|H]; rewrite H; [by destruct (cfg !! i)|done].
Qed.

(** An iteration touches its own field only. *)
Lemma iteration_frame t i cfg j :
  i ≠ j → (step t i cfg).1.1 !! j = cfg !! j.
Proof.
  intros Hij. destruct (t !! i) as [stype|] eqn:Ht; [destruct (cfg !! i) as [v|] eqn:Hv|].
  - rewrite (iteration_field _ _ _ _ _ Ht Hv). cbn. by apply list_lookup_insert_ne.
  - by rewrite iteration_no_field by auto.
  - by rewrite iteration_no_field by auto.
Qed.

Lemma forRange_cons t i rest cfg out :
  loop t (i :: rest) cfg out =
    match (step t i cfg).2 with
    | Normal _ => loop t rest (step t i cfg).1.1 (out ++ (step t i cfg).1.2)
    | Panic p => Panicked p (step t i cfg).1.1 (out ++ (step t i cfg).1.2)
    end.
Proof. cbn [forRange]. by destruct (step t i cfg) as [[? ?] [?|?]]. Qed.

(** The loop leaves alone the fields whose index it does not visit. *)
Lemma forRange_frame t indices : ∀ cfg out j,
  j ∉ indices → final (loop t indices cfg out) !! j = cfg !! j.
Proof.
  induction indices as [|i rest IH]; intros cfg out j Hj; [done|].
  apply not_elem_of_cons in Hj as [Hji Hj].
  rewrite forRange_cons. destruct (step t i cfg).2.
  - rewrite IH by done. by apply iteration_frame.
  - cbn. by apply iteration_frame.
Qed.

(** What is printed is only added to. *)
Lemma forRange_printed t indices : ∀ cfg out,
  out `prefix_of` printed (loop t indices cfg out).
Proof.
  induction indices as [|i rest IH]; intros cfg out; [done|].
  rewrite forRange_cons. destruct (step t i cfg).2.
  - etrans; [|apply IH]. by apply prefix_app_r.
  - cbn. by apply prefix_app_r.
Qed.

(** A field the loop visits holds, when the loop is over, what it held at
    first or what the body stored in it. *)
Lemma forRange_final t indices : NoDup indices → ∀ cfg out j stype v,
  t !! j = Some stype → cfg !! j = Some v →
  final (loop t indices cfg out) !! j = Some v ∨
  final (loop t indices cfg out) !! j = Some (body stype v).1.1.
Proof.
  induction 1 as [|i rest Hi Hnd IH]; intros cfg out j stype v Ht Hv; [by left|].
  rewrite forRange_cons. destruct (decide (i = j)) as [->|Hij].
  - rewrite (iteration_field _ _ _ _ _ Ht Hv). cbn. right.
    destruct (body stype v).2; cbn; [rewrite forRange_frame by done|];
      apply list_lookup_insert_eq; by eapply lookup_lt_Some.
  - destruct (step t i cfg).2 eqn:E; cbn.
    + apply IH; [done|]. by rewrite iteration_frame.
    + left. by rewrite iteration_frame.
Qed.

(** When the loop returns, the body ended normally on every field visited,
    each field holds what the body stored, and what the body printed was
    printed. *)
Lemma forRange_returned t indices : NoDup indices → ∀ cfg out cfg' out' j,
  loop t indices cfg out = Returned cfg' out' → j ∈ indices →
  ∃ stype v, t !! j = Some stype ∧ cfg !! j = Some v ∧
    (body stype v).2 = Normal () ∧
    cfg' !! j = Some (body stype v).1.1 ∧
    (∀ o, o ∈ (body stype v).1.2 → o ∈ out').
Proof.
  induction 1 as [|i rest Hi Hnd IH]; intros cfg out cfg' out' j Hr Hj.
  { by apply elem_of_nil in Hj. }
  rewrite forRange_cons in Hr.
  destruct (t !! i) as [stype|] eqn:Ht; [destruct (cfg !! i) as [v|] eqn:Hv|].
  2,3: by rewrite iteration_no_field in Hr by auto.
  rewrite (iteration_field _ _ _ _ _ Ht Hv) in Hr. cbn in Hr.
  destruct (body stype v).2 as [[]|] eqn:En; [|done].
  apply elem_of_cons in Hj as [->|Hj].
  - exists stype, v. repeat split; try done.
    + replace cfg' with (final (loop t rest (<[i:=(body stype v).1.1]> cfg)
                                 (out ++ (body stype v).1.2))) by by rewrite Hr.
      rewrite forRange_frame by done.
      apply list_lookup_insert_eq. by eapply lookup_lt_Some.
    + intros o Ho.
      pose proof (forRange_printed t rest (<[i:=(body stype v).1.1]> cfg)
                    (out ++ (body stype v).1.2)) as [more Hp].
      rewrite Hr in Hp. cbn in Hp. rewrite Hp. set_solver.
  - destruct (IH _ _ _ _ j Hr Hj) as (st & u & ? & Hu & ?).
    exists st, u. repeat split; try tauto.
    rewrite list_lookup_insert_ne in Hu; [done|]. intros ->. done.
Qed.

(** The loop returns when the body ends normally on every field. *)
Lemma forRange_returns t indices : NoDup indices → ∀ cfg out,
  (∀ j, j ∈ indices → ∃ stype v,
     t !! j = Some stype ∧ cfg !! j = Some v ∧ (body stype v).2 = Normal ()) →
  panicked (loop t indices cfg out) = false.
Proof.
  induction 1 as [|i rest Hi Hnd IH]; intros cfg out Hok; [done|].
  rewrite forRange_cons.
  destruct (Hok i) as (stype & v & Ht & Hv & Hn); [set_solver|].
  rewrite (iteration_field _ _ _ _ _ Ht Hv). cbn [fst snd]. rewrite Hn.
  apply IH. intros j Hj.
  destruct (Hok j) as (st & u & ? & ? & ?); [set_solver|].
  exists st, u. repeat split; try done.
  rewrite list_lookup_insert_ne; [done|]. intros ->. done.
Qed.

(** Two ranges one after the other. *)
Lemma forRange_app t first second : ∀ cfg out,
  loop t (first ++ second) cfg out =
    match loop t first cfg out with
    | Returned cfg1 out1 => loop t second cfg1 out1
    | Panicked p cfg1 out1 => Panicked p cfg1 out1
    end.
Proof.
  induction first as [|i rest IH]; intros cfg out; [done|].
  rewrite <- app_comm_cons, !forRange_cons.
  destruct (step t i cfg).2; [apply IH|done].
Qed.

(** Applying the loop to its own result changes nothing more. *)
Lemma forRange_idem t indices : NoDup indices → ∀ cfg out out2,
  final (loop t indices (final (loop t indices cfg out)) out2)
    = final (loop t indices cfg out) ∧
  panicked (loop t indices (final (loop t indices cfg out)) out2)
    = panicked (loop t indices cfg out).
Proof.
  induction 1 as [|i rest Hi Hnd IH]; intros cfg out out2; [done|].
  rewrite (forRange_cons t i rest cfg).
  destruct (t !! i) as [stype|] eqn:Ht; [destruct (cfg !! i) as [v|] eqn:Hv|].
  2,3: rewrite (iteration_no_field t i cfg) by auto; cbn [final panicked fst snd];
       rewrite forRange_cons, iteration_no_field by auto; done.
  rewrite (iteration_field _ _ _ _ _ Ht Hv). cbn [final panicked fst snd].
  destruct (overlayField_idem stype v) as [Hcell Hend].
  set (v1 := (body stype v).1.1) in *.
  assert (Hv1 : <[i:=v1]> cfg !! i = Some v1).
  { apply list_lookup_insert_eq. by eapply lookup_lt_Some. }
  destruct (body stype v).2 as [[]|p] eqn:En; cbn [final panicked fst snd].
  - set (o := loop t rest (<[i:=v1]> cfg) (out ++ (body stype v).1.2)).
    assert (Ho : final o !! i = Some v1).
    { unfold o. by rewrite forRange_frame. }
    rewrite forRange_cons, (iteration_field _ _ _ _ _ Ht Ho). cbn [final panicked fst snd].
    rewrite Hend, Hcell, (list_insert_id _ _ _ Ho). apply IH.
  - rewrite forRange_cons, (iteration_field _ _ _ _ _ Ht Hv1). cbn [final panicked fst snd].
    rewrite Hend, Hcell. cbn [final panicked fst snd]. by rewrite list_insert_insert_eq.
Qed.

End BodyFacts.

Section OverlayFacts.

Context {Plugin : Type}.
Variable ParseFloat : string → reflect.float64 * option strconv.NumError.
Variable env : gmap string string.

Abbreviation load := (LoadEnvironmentVariables (Plugin:=Plugin) ParseFloat env).

Implicit Types (stype : reflect.StructField) (v : reflect.Value Plugin).
Implicit Types (cfg : Config Plugin).

Lemma forRange_length t indices : ∀ cfg out,
  length (final (forRange ParseFloat env t indices cfg out)) = length cfg.
Proof.
  induction indices as [|i rest IH]; intros cfg out; [done|].
  rewrite forRange_cons.
  assert (length (iteration ParseFloat env t i cfg).1.1 = length cfg) as Hlen.
  { unfold iteration. destruct (cfg !! i); [destruct (t !! i)|]; try done.
    destruct (overlayField _ _ _ _) as [[? ?] ?]. cbn. apply length_insert. }
  destruct (iteration ParseFloat env t i cfg).2; [by rewrite IH|done].
Qed.

Lemma Outcome_returned (o : Outcome Plugin) :
  panicked o = false → o = Returned (final o) (printed o).
Proof. by destruct o. Qed.

Lemma field_index i stype :
  ConfigType !! i = Some stype → i ∈ seq 0 (length ConfigType).
Proof. intros H. apply elem_of_seq. apply lookup_lt_Some in H. lia. Qed.

Lemma WellTyped_lookup cfg i stype :
  WellTyped cfg → ConfigType !! i = Some stype →
  ∃ v, cfg !! i = Some v ∧ reflect.TypeOf v = reflect.Type_ stype.
Proof.
  intros Hwf Ht.
  assert ((reflect.TypeOf <$> cfg) !! i = Some (reflect.Type_ stype)) as H.
  { rewrite Hwf, list_lookup_fmap, Ht. done. }
  rewrite list_lookup_fmap in H. destruct (cfg !! i) as [v|]; [|done].
  exists v. split; [done|]. by injection H.
Qed.

(** A field the walk visits holds what it held or what the body stored. *)
Lemma LoadEnvironmentVariables_final cfg i stype v :
  ConfigType !! i = Some stype → cfg !! i = Some v →
  final (load cfg) !! i = Some v ∨
  final (load cfg) !! i = Some (overlayField ParseFloat env stype v).1.1.
Proof. apply forRange_final, NoDup_seq. Qed.

(** When the walk returns, the body ended normally on every field. *)
Lemma LoadEnvironmentVariables_returned cfg cfg' out i stype :
  load cfg = Returned cfg' out → ConfigType !! i = Some stype →
  ∃ v, cfg !! i = Some v ∧
    (overlayField ParseFloat env stype v).2 = Normal () ∧
    cfg' !! i = Some (overlayField ParseFloat env stype v).1.1 ∧
    (∀ o, o ∈ (overlayField ParseFloat env stype v).1.2 → o ∈ out).
Proof.
  intros Hr Ht.
  destruct (forRange_returned ParseFloat env _ _ (NoDup_seq _ _) _ _ _ _ i Hr)
    as (st & v & Ht' & ? & ? & ? & ?); [by eapply field_index|].
  rewrite Ht in Ht'. injection Ht' as <-. eauto.
Qed.

(** The body ends normally on a field of the type declared for it, unless it
    is the plugin list with its variable set, or a nil [*float32] with its
    variable set to a number. *)
Lemma overlayField_normal stype v :
  reflect.TypeOf v = reflect.Type_ stype →
  (reflect.Type_ stype ∈ supported ∨ env !! EnvName stype = None) →
  (reflect.IsNil v = true →
   reflect.Type_ stype = reflect.Ptr (reflect.Basic reflect.TFloat32) →
   ∀ value, env !! EnvName stype = Some value → (ParseFloat value).2 ≠ None) →
  (overlayField ParseFloat env stype v).2 = Normal ().
Proof.
  intros Hv Hsup Hfloat.
  destruct (overlayField_cases ParseFloat env stype v) as [E|(value & Hc & He & E)];
    rewrite E; [done|].
  destruct Hsup as [Hsup|Hunset]; [|by rewrite He in Hunset].
  unfold supported in Hsup. rewrite !elem_of_cons, elem_of_nil in Hsup.
  destruct Hsup as [Ht|[Ht|[Ht|[Ht|[Ht|[]]]]]].
  - by rewrite switchType_string.
  - by rewrite switchType_strings.
  - by rewrite switchType_bool.
  - destruct (strconv.Atoi value) as [n [e|]] eqn:En.
    + by erewrite switchType_int_rejected.
    + by erewrite switchType_int.
  - destruct (ParseFloat value) as [x [e|]] eqn:Ex.
    + by erewrite switchType_float_rejected.
    + rewrite Ht in Hv. destruct v as [| | |[y|]| | |]; try done.
      * by erewrite switchType_float_present.
      * specialize (Hfloat eq_refl Ht value He). by rewrite Ex in Hfloat.
Qed.

(** A field before which the body never panics is reached: it holds what
    the body stores in it, and a panic of the body on it is the walk's. *)
Lemma LoadEnvironmentVariables_reached cfg i stype v :
  ConfigType !! i = Some stype → cfg !! i = Some v →
  (∀ k, k < i → ∃ st u, ConfigType !! k = Some st ∧ cfg !! k = Some u ∧
                 (overlayField ParseFloat env st u).2 = Normal ()) →
  final (LoadEnvironmentVariables ParseFloat env cfg) !! i
    = Some (overlayField ParseFloat env stype v).1.1 ∧
  (∀ p, (overlayField ParseFloat env stype v).2 = Panic p →
        ∃ cfg' out, LoadEnvironmentVariables ParseFloat env cfg = Panicked p cfg' out).
Proof.
  intros Ht Hv Hbefore. unfold LoadEnvironmentVariables.
  pose proof (lookup_lt_Some _ _ _ Ht) as Hlt.
  replace (length ConfigType) with (i + S (length ConfigType - S i)) by lia.
  rewrite seq_app, forRange_app. cbn [seq plus].
  set (first := forRange ParseFloat env ConfigType (seq 0 i) cfg []).
  assert (panicked first = false) as Hret.
  { apply forRange_returns; [apply NoDup_seq|].
    intros k Hk. apply Hbefore. apply elem_of_seq in Hk. lia. }
  destruct first as [cfg1 out1|] eqn:Hfirst; [clear Hret|done].
  change cfg1 with (final (Returned cfg1 out1)). rewrite <- Hfirst.
  assert (final first !! i = Some v) as Hv1.
  { subst first. rewrite forRange_frame; [done|]. rewrite elem_of_seq. lia. }
  rewrite forRange_cons, (iteration_field _ _ _ _ _ _ _ Ht Hv1). cbn [fst snd].
  assert (<[i:=(overlayField ParseFloat env stype v).1.1]> (final first) !! i
          = Some (overlayField ParseFloat env stype v).1.1) as Hv2.
  { apply list_lookup_insert_eq. by eapply lookup_lt_Some. }
  destruct (overlayField ParseFloat env stype v).2 as [[]|q]; split.
  - rewrite forRange_frame; [done|]. rewrite elem_of_seq. lia.
  - done.
  - done.
  - intros p [= <-]. eauto.
Qed.

End OverlayFacts.

(** ** The fields of [Config] *)

(** Every field has one of the types the [switch] handles, [Plugins] apart;
    [StreamDistance] is the one [*float32]. *)
Lemma ConfigType_supported k st :
  ConfigType !! k = Some st →
  (reflect.Type_ st ∈ supported ∧
   (reflect.Type_ st = reflect.Ptr (reflect.Basic reflect.TFloat32) →
    FieldByName "StreamDistance" = Some k)) ∨
  (FieldByName "Plugins" = Some k ∧ EnvName st = "SAMP_PLUGINS").
Proof.
  intros H.
  do 45 (destruct k as [|k];
         [injection H as <-; vm_compute;
          first [right; split; reflexivity
                |left; split; [repeat constructor|first [discriminate|reflexivity]]]|]).
  done.
Qed.

(** The names of the fields are distinct: [FieldByName] finds each one. *)
Lemma FieldByName_lookup i stype :
  ConfigType !! i = Some stype → FieldByName (reflect.Name stype) = Some i.
Proof.
  intros H.
  do 45 (destruct i as [|i]; [by injection H as <-|]).
  done.
Qed.

Section Returns.

Context {Plugin : Type}.
Variable ParseFloat : string → reflect.float64 * option strconv.NumError.
Variable env : gmap string string.

Implicit Types (cfg : Config Plugin).

(** The body ends normally on a field of a well-typed record, unless it is
    [Plugins] with [SAMP_PLUGINS] set, or a nil [StreamDistance] with
    [SAMP_STREAM_DISTANCE] set to a number. *)
Lemma fields_normal cfg k :
  WellTyped cfg →
  (FieldByName "Plugins" = Some k → env !! "SAMP_PLUGINS" = None) →
  (FieldByName "StreamDistance" = Some k →
   cfg !! k = Some (reflect.PtrFloat32 None) →
   ∀ value, env !! "SAMP_STREAM_DISTANCE" = Some value → (ParseFloat value).2 ≠ None) →
  k < length ConfigType →
  ∃ st u, ConfigType !! k = Some st ∧ cfg !! k = Some u ∧
          (overlayField ParseFloat env st u).2 = Normal ().
Proof.
  intros Hwf Hplugins Hfloat Hk.
  destruct (lookup_lt_is_Some_2 _ _ Hk) as [st Hst].
  destruct (WellTyped_lookup cfg k st Hwf Hst) as (u & Hu & Hty).
  exists st, u. repeat split; try done.
  destruct (ConfigType_supported k st Hst) as [[Hsup Hf]|[Hp Hname]].
  - apply overlayField_normal; [done|by left|].
    intros Hnil Ht value Hvalue. specialize (Hf Ht).
    assert (EnvName st = "SAMP_STREAM_DISTANCE") as Hname.
    { vm_compute in Hf. injection Hf as <-. vm_compute in Hst. by injection Hst as <-. }
    rewrite Hname in Hvalue. apply (Hfloat Hf); [|done].
    rewrite Hu. f_equal. rewrite Ht in Hty. by destruct u as [| | |[?|]| | |].
  - apply overlayField_normal; [done| |].
    + right. rewrite Hname. by apply Hplugins.
    + intros _ Ht. vm_compute in Hp. injection Hp as <-.
      vm_compute in Hst. injection Hst as <-. discriminate Ht.
Qed.

(** With those two conditions the walk returns. *)
Lemma LoadEnvironmentVariables_returns cfg :
  WellTyped cfg →
  env !! "SAMP_PLUGINS" = None →
  (∀ i value, FieldByName "StreamDistance" = Some i →
     cfg !! i = Some (reflect.PtrFloat32 None) →
     env !! "SAMP_STREAM_DISTANCE" = Some value → (ParseFloat value).2 ≠ None) →
  panicked (LoadEnvironmentVariables ParseFloat env cfg) = false.
Proof.
  intros Hwf Hplugins Hfloat. apply forRange_returns; [apply NoDup_seq|].
  intros j Hj. apply elem_of_seq in Hj. apply fields_normal; eauto with lia.
Qed.

End Returns.

(** ** The environment overlay: the specification's claims *)

Section OverlayClaims.

Context {Plugin : Type}.
Variable ParseFloat : string → reflect.float64 * option strconv.NumError.
Variable env : gmap string string.

Implicit Types (stype : reflect.StructField) (v : reflect.Value Plugin).
Implicit Types (cfg : Config Plugin).

(** What C1 says, for the runs that return: a scalar field whose variable
    holds a value of its type holds that value afterwards. *)
Lemma overlay_overrides cfg cfg' out i stype value :
  WellTyped cfg →
  LoadEnvironmentVariables ParseFloat env cfg = Returned cfg' out →
  ConfigType !! i = Some stype → reflect.CanSet stype = true →
  env !! EnvName stype = Some value →
  (reflect.Type_ stype = reflect.Ptr (reflect.Basic reflect.TString) →
   cfg' !! i = Some (reflect.PtrString (Some value))) ∧
  (reflect.Type_ stype = reflect.Ptr (reflect.Basic reflect.TInt) →
   ∀ n, strconv.Atoi value = (n, None) → cfg' !! i = Some (reflect.PtrInt (Some n))) ∧
  (reflect.Type_ stype = reflect.Ptr (reflect.Basic reflect.TBool) →
   ∀ b, strconv.ParseBool value = (b, None) → cfg' !! i = Some (reflect.PtrBool (Some b))) ∧
  (reflect.Type_ stype = reflect.Ptr (reflect.Basic reflect.TFloat32) →
   ∀ x, ParseFloat value = (x, None) →
        cfg' !! i = Some (reflect.PtrFloat32 (Some (reflect.toFloat32 x)))).
Proof.
  intros Hwf Hr Ht Hc He.
  destruct (LoadEnvironmentVariables_returned _ _ _ _ _ _ _ Hr Ht) as (v & Hv & Hn & -> & _).
  destruct (WellTyped_lookup cfg i stype Hwf Ht) as (v' & Hv' & Hty).
  rewrite Hv in Hv'. injection Hv' as <-.
  rewrite (overlayField_set _ _ _ value) in Hn |- * by done.
  repeat split.
  - intros Hs. by rewrite switchType_string.
  - intros Hs n Hp. by erewrite switchType_int.
  - intros Hs b Hp. rewrite switchType_bool by done. by rewrite Hp.
  - intros Hs x Hp. rewrite Hs in Hty. destruct v as [| | |[y|]| | |]; try done.
    + by erewrite switchType_float_present.
    + by erewrite switchType_float_absent in Hn.
Qed.

(** What C2 says, for the two lists of strings: the field is left as it
    is, and a run that returns has printed the message. *)
Lemma string_lists_are_not_overlaid cfg i stype value :
  ConfigType !! i = Some stype → reflect.CanSet stype = true →
  reflect.Type_ stype = reflect.Slice (reflect.Basic reflect.TString) →
  env !! EnvName stype = Some value →
  final (LoadEnvironmentVariables ParseFloat env cfg) !! i = cfg !! i ∧
  (∀ cfg' out, LoadEnvironmentVariables ParseFloat env cfg = Returned cfg' out →
     fmt.Println "cannot set gamemode via environment variables yet" ∈ out).
Proof.
  intros Ht Hc Hs He. split.
  - destruct (cfg !! i) as [v|] eqn:Hv.
    + destruct (LoadEnvironmentVariables_final ParseFloat env cfg i stype v Ht Hv) as [->| ->];
        [done|].
      by rewrite (overlayField_set _ _ _ value), switchType_strings.
    + apply lookup_ge_None. unfold LoadEnvironmentVariables. rewrite forRange_length.
      by apply lookup_ge_None.
  - intros cfg' out Hr.
    destruct (LoadEnvironmentVariables_returned _ _ _ _ _ _ _ Hr Ht) as (v & Hv & _ & _ & Hout).
    apply Hout. rewrite (overlayField_set _ _ _ value), switchType_strings by done.
    cbn. set_solver.
Qed.

(** C1 (the code departs from it).  The claim: every scalar field whose
    variable holds a value of the field's type holds that value after the
    overlay.  The code: for the [*float32] field [StreamDistance], absent
    from the file, with [SAMP_STREAM_DISTANCE] set to a number, the overlay
    allocates a [*float64] for the field and panics; the field stays nil. *)
Theorem float_override_of_absent_field_panics cfg i value x :
  WellTyped cfg →
  FieldByName "StreamDistance" = Some i →
  cfg !! i = Some (reflect.PtrFloat32 None) →
  env !! "SAMP_STREAM_DISTANCE" = Some value →
  ParseFloat value = (x, None) →
  env !! "SAMP_PLUGINS" = None →
  ∃ cfg' out,
    LoadEnvironmentVariables ParseFloat env cfg =
      Panicked "reflect.Set: value of type *float64 is not assignable to type *float32"
        cfg' out ∧
    cfg' !! i = Some (reflect.PtrFloat32 None).
Proof.
  intros Hwf Hi Hv He Hx Hplugins. vm_compute in Hi. injection Hi as <-.
  destruct (ConfigType !! 25) as [stype|] eqn:Ht; [|done].
  assert (overlayField (Plugin:=Plugin) ParseFloat env stype (reflect.PtrFloat32 None) =
          (reflect.PtrFloat32 None, [],
           Panic "reflect.Set: value of type *float64 is not assignable to type *float32"))
    as Hbody.
  { vm_compute in Ht. injection Ht as <-.
    rewrite (overlayField_set _ _ _ value) by done.
    by erewrite switchType_float_absent. }
  destruct (LoadEnvironmentVariables_reached ParseFloat env cfg 25 stype _ Ht Hv)
    as [Hfinal Hpanic].
  { intros k Hk. apply fields_normal; try done.
    - intros Hf. vm_compute in Hf. injection Hf as <-. lia.
    - apply lookup_lt_Some in Ht. lia. }
  rewrite Hbody in Hfinal, Hpanic.
  destruct (Hpanic _ eq_refl) as (cfg' & out & Hr).
  exists cfg', out. split; [done|]. by rewrite Hr in Hfinal.
Qed.

(** C2 (the code departs from it).  The claim: a list field whose variable
    is set is left unchanged with an informational message, and the overlay
    never panics for these types.  The code: [Plugins] has the type
    [[]runtime.Plugin], which no case of the [switch] names, so with
    [SAMP_PLUGINS] set the overlay panics in the default case. *)
Theorem plugins_variable_panics cfg i value :
  WellTyped cfg →
  FieldByName "Plugins" = Some i →
  env !! "SAMP_PLUGINS" = Some value →
  ∃ cfg' out,
    LoadEnvironmentVariables ParseFloat env cfg =
      Panicked "unknown kind '[]runtime.Plugin'" cfg' out ∧
    cfg' !! i = cfg !! i.
Proof.
  intros Hwf Hi He. vm_compute in Hi. injection Hi as <-.
  destruct (ConfigType !! 6) as [stype|] eqn:Ht; [|done].
  destruct (WellTyped_lookup cfg 6 stype Hwf Ht) as (v & Hv & _).
  assert (overlayField ParseFloat env stype v =
          (v, [], Panic "unknown kind '[]runtime.Plugin'")) as Hbody.
  { vm_compute in Ht. injection Ht as <-.
    rewrite (overlayField_set _ _ _ value) by done.
    by rewrite switchType_plugins. }
  destruct (LoadEnvironmentVariables_reached ParseFloat env cfg 6 stype _ Ht Hv)
    as [Hfinal Hpanic].
  { intros k Hk. apply fields_normal; try done.
    - intros Hf. vm_compute in Hf. injection Hf as <-. lia.
    - intros Hf. vm_compute in Hf. injection Hf as <-. lia.
    - apply lookup_lt_Some in Ht. lia. }
  rewrite Hbody in Hfinal, Hpanic.
  destruct (Hpanic _ eq_refl) as (cfg' & out & Hr).
  exists cfg', out. split; [done|]. rewrite Hr in Hfinal. by rewrite Hv.
Qed.

(** What C3 says, where the code does it.  On a value that does not
    parse, a [*int] or a [*float32] field is left as it was, however the
    overlay ends; a [*bool] field is set to [false], the parser's result on
    failure, and the warning is printed, in the runs that return.  By the
    first conjunct the overlay returns when [SAMP_PLUGINS] is not set and
    [SAMP_STREAM_DISTANCE] is not set to a number. *)
Theorem parse_failure_policy cfg i stype value :
  WellTyped cfg →
  ConfigType !! i = Some stype → reflect.CanSet stype = true →
  env !! EnvName stype = Some value →
  (env !! "SAMP_PLUGINS" = None →
   (∀ number, env !! "SAMP_STREAM_DISTANCE" = Some number → (ParseFloat number).2 ≠ None) →
   panicked (LoadEnvironmentVariables ParseFloat env cfg) = false) ∧
  (reflect.Type_ stype = reflect.Ptr (reflect.Basic reflect.TBool) →
   (strconv.ParseBool value).2 ≠ None →
   ∀ cfg' out, LoadEnvironmentVariables ParseFloat env cfg = Returned cfg' out →
     cfg' !! i = Some (reflect.PtrBool (Some false)) ∧
     ∃ e, warning "boolean" stype value e ∈ out) ∧
  (reflect.Type_ stype = reflect.Ptr (reflect.Basic reflect.TInt) →
   (strconv.Atoi value).2 ≠ None →
   final (LoadEnvironmentVariables ParseFloat env cfg) !! i = cfg !! i) ∧
  (reflect.Type_ stype = reflect.Ptr (reflect.Basic reflect.TFloat32) →
   (ParseFloat value).2 ≠ None →
   final (LoadEnvironmentVariables ParseFloat env cfg) !! i = cfg !! i).
Proof.
  intros Hwf Ht Hc He.
  destruct (WellTyped_lookup cfg i stype Hwf Ht) as (v & Hv & Hty).
  split; [|split; [|split]].
  - intros Hplugins Hdist. apply LoadEnvironmentVariables_returns; try done.
    intros ? ? _ _. apply Hdist.
  - intros Hs Hp cfg' out Hr.
    destruct (LoadEnvironmentVariables_returned _ _ _ _ _ _ _ Hr Ht)
      as (u & Hu & _ & Hcell & Hout).
    rewrite Hv in Hu. injection Hu as <-.
    rewrite (overlayField_set _ _ _ value), switchType_bool in Hcell, Hout by done.
    cbn [fst snd] in Hcell, Hout. split.
    + by rewrite Hcell, ParseBool_rejected.
    + destruct (strconv.ParseBool value).2 as [e|]; [|done].
      exists e. apply Hout. cbn. set_solver.
  - intros Hs Hp. rewrite Hv.
    destruct (LoadEnvironmentVariables_final ParseFloat env cfg i stype v Ht Hv) as [->| ->];
      [done|].
    rewrite (overlayField_set _ _ _ value) by done.
    destruct (strconv.Atoi value) as [n [e|]] eqn:E; [|done].
    by erewrite switchType_int_rejected.
  - intros Hs Hp. rewrite Hv.
    destruct (LoadEnvironmentVariables_final ParseFloat env cfg i stype v Ht Hv) as [->| ->];
      [done|].
    rewrite (overlayField_set _ _ _ value) by done.
    destruct (ParseFloat value) as [n [e|]] eqn:E; [|done].
    by erewrite switchType_float_rejected.
Qed.

(** C7.  The overlay never makes a field nil that was not, and it leaves
    as it is every field whose variable is not set; this holds of the
    record as the overlay leaves it, however the overlay ends. *)
Theorem overlay_preserves_presence cfg :
  (∀ i v, cfg !! i = Some v → reflect.IsNil v = false →
     ∃ v', final (LoadEnvironmentVariables ParseFloat env cfg) !! i = Some v' ∧
           reflect.IsNil v' = false) ∧
  (∀ i stype, ConfigType !! i = Some stype → env !! EnvName stype = None →
     final (LoadEnvironmentVariables ParseFloat env cfg) !! i = cfg !! i).
Proof.
  split.
  - intros i v Hv Hn. destruct (ConfigType !! i) as [stype|] eqn:Ht.
    + destruct (LoadEnvironmentVariables_final ParseFloat env cfg i stype v Ht Hv) as [->| ->];
        eauto using overlayField_presence.
    + exists v. split; [|done]. unfold LoadEnvironmentVariables.
      rewrite forRange_frame; [done|]. rewrite elem_of_seq.
      apply lookup_ge_None in Ht. lia.
  - intros i stype Ht He. destruct (cfg !! i) as [v|] eqn:Hv.
    + destruct (LoadEnvironmentVariables_final ParseFloat env cfg i stype v Ht Hv) as [->| ->];
        [done|].
      by rewrite overlayField_unset.
    + apply lookup_ge_None. unfold LoadEnvironmentVariables. rewrite forRange_length.
      by apply lookup_ge_None.
Qed.

(** C9.  Applying the overlay to the record it left gives the same record
    again, and ends the same way. *)
Theorem overlay_idempotent cfg :
  final (LoadEnvironmentVariables ParseFloat env
           (final (LoadEnvironmentVariables ParseFloat env cfg)))
    = final (LoadEnvironmentVariables ParseFloat env cfg) ∧
  panicked (LoadEnvironmentVariables ParseFloat env
              (final (LoadEnvironmentVariables ParseFloat env cfg)))
    = panicked (LoadEnvironmentVariables ParseFloat env cfg).
Proof. apply forRange_idem, NoDup_seq. Qed.

(** C8, as the code has it.  Of the two fields only [dir] is internal: it
    is unexported, so no key persists it and the overlay leaves it alone.
    [Echo] is an exported optional string like the others: it is persisted
    under the key [echo], and [SAMP_ECHO] overrides it. *)
Theorem only_dir_is_internal cfg :
  (∀ i stype, ConfigType !! i = Some stype → reflect.Name stype = "dir" →
     json.fieldKey stype = None ∧
     final (LoadEnvironmentVariables ParseFloat env cfg) !! i = cfg !! i) ∧
  (∀ i stype, ConfigType !! i = Some stype → reflect.Name stype = "Echo" →
     json.fieldKey stype = Some "echo" ∧
     EnvName stype = "SAMP_ECHO" ∧
     (WellTyped cfg → ∀ value, env !! "SAMP_ECHO" = Some value →
        final (LoadEnvironmentVariables ParseFloat env cfg) !! i
          = Some (reflect.PtrString (Some value)))).
Proof.
  split; intros i stype Ht Hn.
  - pose proof (FieldByName_lookup i stype Ht) as Hi.
    rewrite Hn in Hi. vm_compute in Hi. injection Hi as <-.
    vm_compute in Ht. injection Ht as <-. split; [reflexivity|].
    destruct (cfg !! 0) as [v|] eqn:Hv.
    + edestruct (LoadEnvironmentVariables_final ParseFloat env cfg 0 _ v eq_refl Hv)
        as [->| ->]; [done|].
      by rewrite overlayField_unexported.
    + apply lookup_ge_None. unfold LoadEnvironmentVariables. rewrite forRange_length.
      by apply lookup_ge_None.
  - pose proof (FieldByName_lookup i stype Ht) as Hi.
    rewrite Hn in Hi. vm_compute in Hi. injection Hi as <-.
    pose proof Ht as Ht'. vm_compute in Ht'. injection Ht' as <-.
    split; [reflexivity|]. split; [reflexivity|].
    intros Hwf value He.
    destruct (WellTyped_lookup cfg 3 _ Hwf Ht) as (v & Hv & Hty).
    destruct (LoadEnvironmentVariables_reached ParseFloat env cfg 3 _ v Ht Hv)
      as [-> _].
    + intros k Hk. apply fields_normal; try done.
      * intros Hf. vm_compute in Hf. injection Hf as <-. lia.
      * intros Hf. vm_compute in Hf. injection Hf as <-. lia.
      * cbn. lia.
    + rewrite (overlayField_set _ _ _ value) by done. by rewrite switchType_string.
Qed.

End OverlayClaims.

(** ** The loader: the specification's claims *)

Section LoaderClaims.

Context {Plugin : Type}.
Variable filepath_Join : string → string → string.
Variable json_Unmarshal yaml_Unmarshal :
  string → Config Plugin → Config Plugin * option errors.error.

Implicit Types (fs : gmap string Node) (cfg : Config Plugin).

Lemma ReadFile_readable fs file contents :
  fs !! file = Some (Readable contents) → ReadFile fs file = (contents, None).
Proof. unfold ReadFile. by intros ->. Qed.

Lemma ReadFile_unreadable fs file e :
  fs !! file = Some (Unreadable e) → ReadFile fs file = (EmptyString, Some e).
Proof. unfold ReadFile. by intros ->. Qed.

(** What C5 says, for the JSON file: the error wraps the decoder's and its
    message names [samp.json]. *)
Lemma ConfigFromJSON_malformed fs file contents cfg e :
  fs !! file = Some (Readable contents) →
  json_Unmarshal contents zeroConfig = (cfg, Some e) →
  ConfigFromJSON json_Unmarshal fs file
    = (cfg, Some (errors.Wrap e "failed to unmarshal samp.json")).
Proof.
  intros Hf Hd. unfold ConfigFromJSON. by rewrite (ReadFile_readable _ _ _ Hf), Hd.
Qed.

(** C4.  With a [samp.json] in the directory the result is the decoding of
    that file, and nothing else of the file system, nor the YAML decoder,
    has a part in it. *)
Theorem json_takes_precedence fs dir :
  Exists fs (filepath_Join dir "samp.json") = true →
  ConfigFromDirectory filepath_Join json_Unmarshal yaml_Unmarshal fs dir
    = ConfigFromJSON json_Unmarshal fs (filepath_Join dir "samp.json") ∧
  (∀ contents cfg,
     fs !! filepath_Join dir "samp.json" = Some (Readable contents) →
     json_Unmarshal contents zeroConfig = (cfg, None) →
     ConfigFromDirectory filepath_Join json_Unmarshal yaml_Unmarshal fs dir = (cfg, None)) ∧
  (∀ fs' yaml_Unmarshal',
     fs' !! filepath_Join dir "samp.json" = fs !! filepath_Join dir "samp.json" →
     ConfigFromDirectory filepath_Join json_Unmarshal yaml_Unmarshal' fs' dir
       = ConfigFromDirectory filepath_Join json_Unmarshal yaml_Unmarshal fs dir).
Proof.
  intros He.
  assert (ConfigFromDirectory filepath_Join json_Unmarshal yaml_Unmarshal fs dir
          = ConfigFromJSON json_Unmarshal fs (filepath_Join dir "samp.json")) as Hjson.
  { unfold ConfigFromDirectory. by rewrite He. }
  split; [done|]. split.
  - intros contents cfg Hf Hd. rewrite Hjson. unfold ConfigFromJSON.
    by rewrite (ReadFile_readable _ _ _ Hf), Hd.
  - intros fs' yaml' Hsame. rewrite Hjson. unfold ConfigFromDirectory.
    replace (Exists fs' (filepath_Join dir "samp.json")) with true
      by (unfold Exists in *; by rewrite Hsame).
    unfold ConfigFromJSON, ReadFile. by rewrite Hsame.
Qed.

(** C10.  With a [samp.json] in the directory a failure to read it or to
    decode it is the result: the error wraps the failure, whatever else the
    directory holds. *)
Theorem json_failure_is_final fs dir :
  Exists fs (filepath_Join dir "samp.json") = true →
  (∀ e, fs !! filepath_Join dir "samp.json" = Some (Unreadable e) →
     ConfigFromDirectory filepath_Join json_Unmarshal yaml_Unmarshal fs dir
       = (zeroConfig, Some (errors.Wrap e "failed to read samp.json"))) ∧
  (∀ contents cfg e,
     fs !! filepath_Join dir "samp.json" = Some (Readable contents) →
     json_Unmarshal contents zeroConfig = (cfg, Some e) →
     ConfigFromDirectory filepath_Join json_Unmarshal yaml_Unmarshal fs dir
       = (cfg, Some (errors.Wrap e "failed to unmarshal samp.json"))).
Proof.
  intros He. unfold ConfigFromDirectory. rewrite He. split.
  - intros e Hf. unfold ConfigFromJSON. by rewrite (ReadFile_unreadable _ _ _ Hf).
  - intros contents cfg e Hf Hd. by apply (ConfigFromJSON_malformed _ _ contents).
Qed.

(** C5 (the code departs from it).  The claim: the error of a load names
    the file that failed.  The code: a YAML file that cannot be read or
    decoded is reported with the messages of the JSON loader, which name
    [samp.json]; the cause is kept. *)
Theorem yaml_failure_is_reported_as_json fs file :
  (∀ e, fs !! file = Some (Unreadable e) →
     ∃ err, (ConfigFromYAML yaml_Unmarshal fs file).2 = Some err ∧
       errors.Error err = "failed to read samp.json: " +:+ errors.Error e ∧
       errors.Cause err = errors.Cause e) ∧
  (∀ contents cfg e,
     fs !! file = Some (Readable contents) →
     yaml_Unmarshal contents zeroConfig = (cfg, Some e) →
     ∃ err, (ConfigFromYAML yaml_Unmarshal fs file).2 = Some err ∧
       errors.Error err = "failed to unmarshal samp.json: " +:+ errors.Error e ∧
       errors.Cause err = errors.Cause e).
Proof.
  split.
  - intros e Hf. unfold ConfigFromYAML. rewrite (ReadFile_unreadable _ _ _ Hf).
    eexists. split; [reflexivity|]. by split.
  - intros contents cfg e Hf Hd. unfold ConfigFromYAML.
    rewrite (ReadFile_readable _ _ _ Hf), Hd.
    eexists. split; [reflexivity|]. by split.
Qed.

(** C6, as the code has it.  With neither file in the directory the load
    fails with one fixed error, the same for every directory: its message
    is a constant, and the directory is in it only where the constant
    happens to hold the directory's path. *)
Theorem no_configuration_file fs dir :
  Exists fs (filepath_Join dir "samp.json") = false →
  Exists fs (filepath_Join dir "samp.yaml") = false →
  ∃ err,
    ConfigFromDirectory filepath_Join json_Unmarshal yaml_Unmarshal fs dir
      = (zeroConfig, Some err) ∧
    err = errors.New "directory does not contain a samp.json or samp.yaml file" ∧
    errors.Error err = "directory does not contain a samp.json or samp.yaml file" ∧
    strings.Contains (errors.Error err) dir
      = strings.Contains "directory does not contain a samp.json or samp.yaml file" dir.
Proof.
  intros Hj Hy. unfold ConfigFromDirectory. rewrite Hj, Hy.
  eexists. repeat split; reflexivity.
Qed.

End LoaderClaims.

(** ** The claims on concrete inputs *)

(** C1: [stream_distance] absent from the file, [SAMP_STREAM_DISTANCE=1.5]. *)
Lemma float_override_of_absent_field_panics_witness :
  ∃ cfg' out,
    LoadEnvironmentVariables sampleParseFloat {[ "SAMP_STREAM_DISTANCE" := "1.5" ]}
      (zeroConfig (Plugin:=string)) =
      Panicked "reflect.Set: value of type *float64 is not assignable to type *float32"
        cfg' out ∧
    cfg' !! 25 = Some (reflect.PtrFloat32 None).
Proof.
  apply (float_override_of_absent_field_panics sampleParseFloat _ zeroConfig 25 "1.5"
           (S754_finite false 3 (-1))); vm_compute; reflexivity.
Defined.

(** The same field, present in the file, is overridden. *)
Example float_override_of_present_field :
  final (LoadEnvironmentVariables sampleParseFloat {[ "SAMP_STREAM_DISTANCE" := "1.5" ]}
           fileConfig) !! 25
  = Some (reflect.PtrFloat32 (Some (S754_finite false 12582912 (-23)))).
Proof. vm_compute. reflexivity. Qed.

(** C1's example: [port] 7777 in the file, [SAMP_PORT=9999]. *)
Example port_is_overridden :
  ∃ i, FieldByName "Port" = Some i ∧
       fileConfig !! i = Some (reflect.PtrInt (Some 7777%Z)) ∧
       final (LoadEnvironmentVariables sampleParseFloat sampleEnv fileConfig) !! i
         = Some (reflect.PtrInt (Some 9999%Z)).
Proof. exists 8. vm_compute. auto. Qed.

(** C7's example: [port] 7777 in the file, no [SAMP_PORT]. *)
Example port_is_kept :
  ∃ i, FieldByName "Port" = Some i ∧
       final (LoadEnvironmentVariables sampleParseFloat {[ "SAMP_HOSTNAME" := "test" ]}
                fileConfig) !! i
         = Some (reflect.PtrInt (Some 7777%Z)).
Proof. exists 8. vm_compute. auto. Qed.

(** C2: [SAMP_PLUGINS] set, to anything. *)
Lemma plugins_variable_panics_witness :
  ∃ cfg' out,
    LoadEnvironmentVariables sampleParseFloat {[ "SAMP_PLUGINS" := "crashdetect" ]} fileConfig
      = Panicked "unknown kind '[]runtime.Plugin'" cfg' out ∧
    cfg' !! 6 = fileConfig !! 6.
Proof.
  apply (plugins_variable_panics sampleParseFloat _ fileConfig 6 "crashdetect");
    vm_compute; reflexivity.
Defined.

(** The two lists of strings, with their variables set: one message each,
    and nothing changes. *)
Example gamemodes_variable_is_ignored :
  LoadEnvironmentVariables sampleParseFloat
    {[ "SAMP_GAMEMODES" := "grandlarc"; "SAMP_FILTERSCRIPTS" := "admin" ]} fileConfig
  = Returned fileConfig
      [ fmt.Println "cannot set gamemode via environment variables yet";
        fmt.Println "cannot set gamemode via environment variables yet" ].
Proof. vm_compute. reflexivity. Qed.

(** The same on [SAMP_ANNOUNCE=yes] and [SAMP_MAXPLAYERS=notanumber] over a
    file with [announce] true and [maxplayers] 50. *)
Lemma parse_failure_policy_witness :
  panicked (LoadEnvironmentVariables sampleParseFloat sampleEnv fileConfig) = false ∧
  final (LoadEnvironmentVariables sampleParseFloat sampleEnv fileConfig) !! 17
    = Some (reflect.PtrBool (Some false)) ∧
  final (LoadEnvironmentVariables sampleParseFloat sampleEnv fileConfig) !! 10
    = Some (reflect.PtrInt (Some 50%Z)).
Proof.
  destruct (parse_failure_policy sampleParseFloat sampleEnv fileConfig 17
              ltac:(field_at 17) "yes")
    as (Hret & Hbool & _);
    [vm_compute; reflexivity|reflexivity|reflexivity|vm_compute; reflexivity|].
  destruct (parse_failure_policy sampleParseFloat sampleEnv fileConfig 10
              ltac:(field_at 10) "notanumber")
    as (_ & _ & Hint & _);
    [vm_compute; reflexivity|reflexivity|reflexivity|vm_compute; reflexivity|].
  assert (panicked (LoadEnvironmentVariables sampleParseFloat sampleEnv fileConfig) = false)
    as Hp by (apply Hret; [vm_compute; reflexivity|intros ? [=]]).
  split; [exact Hp|]. split.
  - refine (proj1 (Hbool eq_refl _ _ _ (Outcome_returned _ Hp))).
    vm_compute. discriminate.
  - rewrite Hint; [reflexivity|reflexivity|vm_compute; discriminate].
Defined.

(** C8: [SAMP_ECHO] reaches [Echo], which has the key [echo]. *)
Lemma Echo_is_overlaid_and_persisted :
  ∃ i stype,
    FieldByName "Echo" = Some i ∧ ConfigType !! i = Some stype ∧
    json.fieldKey stype = Some "echo" ∧
    zeroConfig (Plugin:=string) !! i = Some (reflect.PtrString None) ∧
    final (LoadEnvironmentVariables sampleParseFloat {[ "SAMP_ECHO" := "hello" ]}
             (zeroConfig (Plugin:=string))) !! i
      = Some (reflect.PtrString (Some "hello")).
Proof. exists 3. eexists. vm_compute. auto 6. Qed.

(** C4: [/srv/c] holds both files. *)
Lemma json_takes_precedence_witness :
  ConfigFromDirectory sampleJoin sampleJSON sampleYAML sampleFS "/srv/c"
    = (setField "Port" (reflect.PtrInt (Some 7777%Z)) zeroConfig, None) ∧
  ConfigFromDirectory sampleJoin sampleJSON sampleYAML
      (<["/srv/c/samp.yaml" := Readable "port: ["]> sampleFS) "/srv/c"
    = ConfigFromDirectory sampleJoin sampleJSON sampleYAML sampleFS "/srv/c" ∧
  ConfigFromDirectory sampleJoin sampleJSON sampleYAML
      (delete "/srv/c/samp.yaml" sampleFS) "/srv/c"
    = ConfigFromDirectory sampleJoin sampleJSON sampleYAML sampleFS "/srv/c".
Proof.
  destruct (json_takes_precedence sampleJoin sampleJSON sampleYAML sampleFS "/srv/c")
    as (_ & Hdecoded & Hsame); [vm_compute; reflexivity|].
  split; [|split].
  - eapply Hdecoded; vm_compute; reflexivity.
  - apply Hsame. vm_compute. reflexivity.
  - apply Hsame. vm_compute. reflexivity.
Defined.

(** C10: [/srv/a] holds a malformed [samp.json] and a well-formed
    [samp.yaml]. *)
Lemma json_failure_is_final_witness :
  ConfigFromDirectory sampleJoin sampleJSON sampleYAML sampleFS "/srv/a"
    = (zeroConfig,
       Some (errors.Wrap (errors.foreign "unexpected end of JSON input")
               "failed to unmarshal samp.json")).
Proof.
  destruct (json_failure_is_final sampleJoin sampleJSON sampleYAML sampleFS "/srv/a")
    as (_ & Hdecode); [vm_compute; reflexivity|].
  eapply Hdecode; vm_compute; reflexivity.
Defined.

(** C5: [/srv/b] holds a malformed [samp.yaml] only; the message of the
    error names [samp.json] and not [samp.yaml]. *)
Example yaml_failure_names_json :
  ∃ err,
    (ConfigFromDirectory sampleJoin sampleJSON sampleYAML sampleFS "/srv/b").2 = Some err ∧
    errors.Error err
      = "failed to unmarshal samp.json: yaml: did not find expected node content" ∧
    strings.Contains (errors.Error err) "samp.yaml" = false.
Proof. eexists. vm_compute. auto. Qed.

(** C6: [/srv/none] holds neither file. *)
Lemma no_configuration_file_witness :
  ∃ err,
    ConfigFromDirectory sampleJoin sampleJSON sampleYAML sampleFS "/srv/none"
      = (zeroConfig, Some err) ∧
    err = errors.New "directory does not contain a samp.json or samp.yaml file" ∧
    errors.Error err = "directory does not contain a samp.json or samp.yaml file" ∧
    strings.Contains (errors.Error err) "/srv/none"
      = strings.Contains "directory does not contain a samp.json or samp.yaml file"
          "/srv/none".
Proof.
  apply (no_configuration_file sampleJoin sampleJSON sampleYAML sampleFS "/srv/none");
    vm_compute; reflexivity.
Defined.

(** C6: the message of that error does not hold the directory. *)
Lemma no_configuration_file_message_omits_directory :
  ∃ err,
    (ConfigFromDirectory sampleJoin sampleJSON sampleYAML sampleFS "/srv/none").2 = Some err ∧
    strings.Contains (errors.Error err) "/srv/none" = false.
Proof. eexists. vm_compute. auto. Qed.

(** The whole load: [/srv/c], [SAMP_PORT=9999]. *)
Example NewConfigFromEnvironment_overrides_file :
  NewConfigFromEnvironment sampleJoin sampleJSON sampleYAML sampleFS sampleParseFloat
    {[ "SAMP_PORT" := "9999" ]} "/srv/c"
  = ([], Normal (setField "dir" (reflect.PtrString (Some "/srv/c"))
                   (setField "Port" (reflect.PtrInt (Some 9999%Z)) zeroConfig), None)).
Proof. vm_compute. reflexivity. Qed.

(** * More about the overlay and the loader *)

(** ** The body of the loop: what it reads, prints and stores *)

Section BodyMore.

Context {Plugin : Type}.
Variable ParseFloat : string → reflect.float64 * option strconv.NumError.

Implicit Types (stype : reflect.StructField) (v : reflect.Value Plugin).
Implicit Types (cfg : Config Plugin) (env : gmap string string).

(** The body looks up one variable, that of its field. *)
Lemma overlayField_env env1 env2 stype v :
  (reflect.CanSet stype = true → env1 !! EnvName stype = env2 !! EnvName stype) →
  overlayField ParseFloat env1 stype v = overlayField ParseFloat env2 stype v.
Proof.
  intros Hsame. destruct (reflect.CanSet stype) eqn:Hc.
  - specialize (Hsame eq_refl).
    destruct (env1 !! EnvName stype) as [value|] eqn:H1.
    + by rewrite !(overlayField_set _ _ _ value).
    + by rewrite !overlayField_unset.
  - by rewrite !overlayField_unexported.
Qed.

(** The content of a field keeps its type, and the type of the field if it
    had it. *)
Lemma switchType_TypeOf stype value v :
  reflect.TypeOf v = reflect.Type_ stype →
  reflect.TypeOf (switchType ParseFloat stype value v).1.1 = reflect.Type_ stype.
Proof.
  intros Hv. run_switch.
  repeat match goal with
         | |- context [if String.eqb ?a ?b then _ else _] => destruct (String.eqb a b)
         end; try done.
  - destruct v as [[?|]|[?|]|[?|]|[?|]|[?|]|[?|]|[?|]]; cbn; try done.
    all: unfold reflect.Set_; destruct (decide _); cbn; done.
  - destruct (strconv.ParseBool value) as [b [e|]].
    all: destruct v as [[?|]|[?|]|[?|]|[?|]|[?|]|[?|]|[?|]]; cbn; try done.
    all: unfold reflect.Set_; destruct (decide _); cbn; done.
  - destruct (strconv.Atoi value) as [b [e|]]; [done|].
    all: destruct v as [[?|]|[?|]|[?|]|[?|]|[?|]|[?|]|[?|]]; cbn; try done.
    all: unfold reflect.Set_; destruct (decide _); cbn; done.
  - destruct (ParseFloat value) as [b [e|]]; [done|].
    all: destruct v as [[?|]|[?|]|[?|]|[?|]|[?|]|[?|]|[?|]]; cbn; try done.
    all: unfold reflect.Set_; destruct (decide _); cbn; done.
Qed.

Lemma overlayField_TypeOf env stype v :
  reflect.TypeOf v = reflect.Type_ stype →
  reflect.TypeOf (overlayField ParseFloat env stype v).1.1 = reflect.Type_ stype.
Proof.
  intros Hv. destruct (overlayField_cases ParseFloat env stype v) as [E|(value & _ & _ & E)];
    rewrite E; [done|]. by apply switchType_TypeOf.
Qed.

(** What the [switch] prints: in the case of the lists of strings their
    message, and in the case of a scalar type the warning of that type's
    parser, when it rejected the value. *)
Lemma switchType_printed stype value v o :
  o ∈ (switchType ParseFloat stype value v).1.2 →
  (reflect.TypeString (reflect.Type_ stype) = "[]string" ∧
   o = fmt.Println "cannot set gamemode via environment variables yet") ∨
  (reflect.TypeString (reflect.Type_ stype) = "*bool" ∧
   ∃ e, o = warning "boolean" stype value e ∧ (strconv.ParseBool value).2 = Some e) ∨
  (reflect.TypeString (reflect.Type_ stype) = "*int" ∧
   ∃ e, o = warning "integer" stype value e ∧ (strconv.Atoi value).2 = Some e) ∨
  (reflect.TypeString (reflect.Type_ stype) = "*float32" ∧
   ∃ e, o = warning "float" stype value e ∧ (ParseFloat value).2 = Some e).
Proof.
  run_switch.
  repeat match goal with
         | |- context [if String.eqb ?a ?b then _ else _] =>
             destruct (String.eqb_spec a b) as [?Hkind|?Hkind]
         end.
  - destruct v as [[?|]|[?|]|[?|]|[?|]|[?|]|[?|]|[?|]]; cbn;
      try (unfold reflect.Set_; destruct (decide _); cbn); by intros ?%elem_of_nil.
  - cbn. intros ->%list_elem_of_singleton. by left.
  - destruct (strconv.ParseBool value) as [b [e|]].
    all: destruct v as [[?|]|[?|]|[?|]|[?|]|[?|]|[?|]|[?|]]; cbn;
      try (unfold reflect.Set_; destruct (decide _); cbn).
    all: try by intros ?%elem_of_nil.
    all: intros ->%list_elem_of_singleton; right; left; split; [done|]; by exists e.
  - destruct (strconv.Atoi value) as [b [e|]].
    + cbn. intros ->%list_elem_of_singleton. right; right; left. split; [done|]. by exists e.
    + destruct v as [[?|]|[?|]|[?|]|[?|]|[?|]|[?|]|[?|]]; cbn;
        try (unfold reflect.Set_; destruct (decide _); cbn); by intros ?%elem_of_nil.
  - destruct (ParseFloat value) as [b [e|]].
    + cbn. intros ->%list_elem_of_singleton. right; right; right. split; [done|]. by exists e.
    + destruct v as [[?|]|[?|]|[?|]|[?|]|[?|]|[?|]|[?|]]; cbn;
        try (unfold reflect.Set_; destruct (decide _); cbn); by intros ?%elem_of_nil.
  - cbn. by intros ?%elem_of_nil.
Qed.

End BodyMore.

(** ** The loop: what it prints, and when it changes nothing *)

Section LoopMore.

Context {Plugin : Type}.
Variable ParseFloat : string → reflect.float64 * option strconv.NumError.

Implicit Types (stype : reflect.StructField) (v : reflect.Value Plugin).
Implicit Types (t : list reflect.StructField) (cfg : Config Plugin).
Implicit Types (env : gmap string string).

(** What is printed was printed before the loop or by the body on a field
    the loop visits. *)
Lemma forRange_printed_by env t indices : NoDup indices → ∀ cfg out o,
  o ∈ printed (forRange ParseFloat env t indices cfg out) →
  o ∈ out ∨
  ∃ j stype v, j ∈ indices ∧ t !! j = Some stype ∧ cfg !! j = Some v ∧
               o ∈ (overlayField ParseFloat env stype v).1.2.
Proof.
  induction 1 as [|i rest Hi Hnd IH]; intros cfg out o Ho; [by left|].
  rewrite forRange_cons in Ho.
  destruct (t !! i) as [stype|] eqn:Ht; [destruct (cfg !! i) as [v|] eqn:Hv|].
  2,3: rewrite iteration_no_field in Ho by auto; cbn in Ho;
       rewrite app_nil_r in Ho; by left.
  rewrite (iteration_field _ _ _ _ _ _ _ Ht Hv) in Ho. cbn [fst snd] in Ho.
  assert (o ∈ out ++ (overlayField ParseFloat env stype v).1.2 →
          o ∈ out ∨ ∃ j st u, j ∈ i :: rest ∧ t !! j = Some st ∧ cfg !! j = Some u ∧
                              o ∈ (overlayField ParseFloat env st u).1.2) as Hhere.
  { intros [?|?]%elem_of_app; [by left|]. right. exists i, stype, v. set_solver. }
  destruct (overlayField ParseFloat env stype v).2; [|by apply Hhere].
  apply IH in Ho as [Ho|(j & st & u & Hj & ? & Hu & ?)]; [by apply Hhere|].
  right. exists j, st, u. repeat split; try done; [set_solver|].
  rewrite list_lookup_insert_ne in Hu; [done|]. intros ->. done.
Qed.

(** A loop whose body stores what it found and prints nothing returns the
    record as it was. *)
Lemma forRange_unchanged env t indices : ∀ cfg out,
  (∀ j, j ∈ indices → ∃ stype v, t !! j = Some stype ∧ cfg !! j = Some v ∧
        overlayField ParseFloat env stype v = (v, [], Normal ())) →
  forRange ParseFloat env t indices cfg out = Returned cfg out.
Proof.
  induction indices as [|i rest IH]; intros cfg out Hall; [done|].
  rewrite forRange_cons.
  destruct (Hall i) as (stype & v & Ht & Hv & Hb); [set_solver|].
  rewrite (iteration_field _ _ _ _ _ _ _ Ht Hv), Hb. cbn [fst snd].
  rewrite (list_insert_id _ _ _ Hv), app_nil_r. apply IH.
  intros j Hj. apply Hall. set_solver.
Qed.

(** Two environments that give the fields' variables the same values give
    the same loop. *)
Lemma forRange_env env1 env2 t indices : ∀ cfg out,
  (∀ stype, stype ∈ t → reflect.CanSet stype = true →
     env1 !! EnvName stype = env2 !! EnvName stype) →
  forRange ParseFloat env1 t indices cfg out = forRange ParseFloat env2 t indices cfg out.
Proof.
  intros cfg out Hsame. revert cfg out.
  induction indices as [|i rest IH]; intros cfg out; [done|].
  rewrite !forRange_cons.
  assert (iteration ParseFloat env1 t i cfg = iteration ParseFloat env2 t i cfg) as ->.
  { unfold iteration. destruct (cfg !! i) as [v|]; [|done].
    destruct (t !! i) as [stype|] eqn:Ht; [|done].
    rewrite (overlayField_env _ env1 env2); [done|].
    apply Hsame. by eapply list_elem_of_lookup_2. }
  destruct (iteration ParseFloat env2 t i cfg).2; [apply IH|done].
Qed.

(** The loop keeps the types of the fields. *)
Lemma forRange_TypeOf env t indices : ∀ cfg out,
  reflect.TypeOf <$> cfg = reflect.Type_ <$> t →
  reflect.TypeOf <$> final (forRange ParseFloat env t indices cfg out) = reflect.Type_ <$> t.
Proof.
  induction indices as [|i rest IH]; intros cfg out Hwf; [done|].
  rewrite forRange_cons.
  assert (reflect.TypeOf <$> (iteration ParseFloat env t i cfg).1.1 = reflect.Type_ <$> t)
    as Hstep.
  { destruct (t !! i) as [stype|] eqn:Ht; [destruct (cfg !! i) as [v|] eqn:Hv|].
    2,3: by rewrite iteration_no_field by auto.
    rewrite (iteration_field _ _ _ _ _ _ _ Ht Hv). cbn [fst].
    assert (reflect.TypeOf v = reflect.Type_ stype) as Hty.
    { assert ((reflect.TypeOf <$> cfg) !! i = (reflect.Type_ <$> t) !! i) as H by by rewrite Hwf.
      rewrite !list_lookup_fmap, Hv, Ht in H. by injection H. }
    rewrite list_fmap_insert, overlayField_TypeOf by done.
    rewrite <- Hwf. apply list_insert_id. rewrite list_lookup_fmap, Hv. cbn.
    by rewrite Hty. }
  destruct (iteration ParseFloat env t i cfg).2; [by apply IH|done].
Qed.

End LoopMore.

(** ** The overlay as a whole *)

(** For the fields of [Config], the string the [switch] compares tells the
    type. *)
Lemma ConfigType_TypeString stype :
  stype ∈ ConfigType →
  (reflect.TypeString (reflect.Type_ stype) = "[]string" →
   reflect.Type_ stype = reflect.Slice (reflect.Basic reflect.TString)) ∧
  (reflect.TypeString (reflect.Type_ stype) = "*bool" →
   reflect.Type_ stype = reflect.Ptr (reflect.Basic reflect.TBool)) ∧
  (reflect.TypeString (reflect.Type_ stype) = "*int" →
   reflect.Type_ stype = reflect.Ptr (reflect.Basic reflect.TInt)) ∧
  (reflect.TypeString (reflect.Type_ stype) = "*float32" →
   reflect.Type_ stype = reflect.Ptr (reflect.Basic reflect.TFloat32)).
Proof.
  revert stype.
  apply (proj1 (Forall_forall
    (λ stype,
       (reflect.TypeString (reflect.Type_ stype) = "[]string" →
        reflect.Type_ stype = reflect.Slice (reflect.Basic reflect.TString)) ∧
       (reflect.TypeString (reflect.Type_ stype) = "*bool" →
        reflect.Type_ stype = reflect.Ptr (reflect.Basic reflect.TBool)) ∧
       (reflect.TypeString (reflect.Type_ stype) = "*int" →
        reflect.Type_ stype = reflect.Ptr (reflect.Basic reflect.TInt)) ∧
       (reflect.TypeString (reflect.Type_ stype) = "*float32" →
        reflect.Type_ stype = reflect.Ptr (reflect.Basic reflect.TFloat32)))
    ConfigType)).
  unfold ConfigType.
  repeat (constructor;
          [repeat split; intros H; first [reflexivity | by vm_compute in H]|]).
  constructor.
Qed.

(** The names of the fields' variables are distinct. *)
Lemma EnvName_NoDup : NoDup (EnvName <$> ConfigType).
Proof. apply (bool_decide_unpack (NoDup (EnvName <$> ConfigType))). vm_compute. exact I. Qed.

Section OverlayMore.

Context {Plugin : Type}.
Variable ParseFloat : string → reflect.float64 * option strconv.NumError.

Implicit Types (stype : reflect.StructField) (v : reflect.Value Plugin).
Implicit Types (cfg : Config Plugin) (env : gmap string string).

(** A field on which the body panics keeps the walk from returning. *)
Lemma field_panic_stops env cfg i stype v p :
  ConfigType !! i = Some stype → cfg !! i = Some v →
  (overlayField ParseFloat env stype v).2 = Panic p →
  panicked (LoadEnvironmentVariables ParseFloat env cfg) = true.
Proof.
  intros Ht Hv Hp.
  destruct (panicked (LoadEnvironmentVariables ParseFloat env cfg)) eqn:E; [done|].
  apply Outcome_returned in E.
  destruct (LoadEnvironmentVariables_returned _ _ _ _ _ _ _ E Ht) as (u & Hu & Hn & _).
  rewrite Hv in Hu. injection Hu as <-. by rewrite Hp in Hn.
Qed.

Lemma WellTyped_setField_dir cfg dir :
  WellTyped cfg → WellTyped (setField "dir" (reflect.PtrString (Some dir)) cfg).
Proof.
  unfold WellTyped, setField. intros Hwf.
  replace (FieldByName "dir") with (Some 0) by reflexivity.
  rewrite list_fmap_insert, Hwf. reflexivity.
Qed.

(** X3.  On a well-typed record the overlay panics in two cases and no
    other: [SAMP_PLUGINS] is set, or the record has no stream distance and
    [SAMP_STREAM_DISTANCE] is set to a number. *)
Theorem overlay_panics_iff env cfg i :
  WellTyped cfg → FieldByName "StreamDistance" = Some i →
  panicked (LoadEnvironmentVariables ParseFloat env cfg) = true ↔
  is_Some (env !! "SAMP_PLUGINS") ∨
  (cfg !! i = Some (reflect.PtrFloat32 None) ∧
   ∃ number, env !! "SAMP_STREAM_DISTANCE" = Some number ∧ (ParseFloat number).2 = None).
Proof.
  intros Hwf Hi. vm_compute in Hi. injection Hi as <-. split.
  - intros Hp. destruct (env !! "SAMP_PLUGINS") as [value|] eqn:Hplugins; [left; eauto|].
    assert (cfg !! 25 = Some (reflect.PtrFloat32 None) ∨
            cfg !! 25 ≠ Some (reflect.PtrFloat32 None)) as [Hv|Hv].
    { destruct (cfg !! 25) as [[| | |[y|]| | |]|]; (by left) || (by right). }
    + right. split; [done|].
      destruct (env !! "SAMP_STREAM_DISTANCE") as [number|] eqn:Hd.
      * destruct (ParseFloat number).2 as [e|] eqn:He; [|eauto].
        rewrite LoadEnvironmentVariables_returns in Hp; try done.
        intros j number' Hj _ Hd'. rewrite Hd in Hd'. injection Hd' as <-.
        by rewrite He.
      * rewrite LoadEnvironmentVariables_returns in Hp; try done.
        intros j number' _ _ Hd'. by rewrite Hd in Hd'.
    + rewrite LoadEnvironmentVariables_returns in Hp; try done.
      intros j number Hj Hnil. vm_compute in Hj. injection Hj as <-. done.
  - intros [[value Hplugins]|(Hv & number & Hd & He)].
    + destruct (ConfigType !! 6) as [stype|] eqn:Ht; [|done].
      destruct (WellTyped_lookup cfg 6 stype Hwf Ht) as (v & Hv & _).
      eapply field_panic_stops; [done..|].
      vm_compute in Ht. injection Ht as <-.
      rewrite (overlayField_set _ _ _ value) by done.
      by rewrite switchType_plugins.
    + destruct (ConfigType !! 25) as [stype|] eqn:Ht; [|done].
      eapply field_panic_stops; [done..|].
      vm_compute in Ht. injection Ht as <-.
      rewrite (overlayField_set _ _ _ number) by done.
      destruct (ParseFloat number) as [x [e|]] eqn:Ex; [done|].
      by erewrite switchType_float_absent.
Qed.

(** X4.  With none of the fields' variables set, the overlay returns the
    record as it was and prints nothing. *)
Theorem overlay_without_variables env cfg :
  WellTyped cfg →
  (∀ stype, stype ∈ ConfigType → reflect.CanSet stype = true →
     env !! EnvName stype = None) →
  LoadEnvironmentVariables ParseFloat env cfg = Returned cfg [].
Proof.
  intros Hwf Hunset. apply forRange_unchanged. intros j Hj.
  apply elem_of_seq in Hj. destruct (lookup_lt_is_Some_2 ConfigType j) as [stype Ht]; [lia|].
  destruct (WellTyped_lookup cfg j stype Hwf Ht) as (v & Hv & _).
  exists stype, v. repeat split; try done.
  destruct (reflect.CanSet stype) eqn:Hc.
  - apply overlayField_unset, Hunset; [|done]. by eapply list_elem_of_lookup_2.
  - by apply overlayField_unexported.
Qed.

(** X5.  When the overlay returns under two environments, a field whose
    variable is the same in both (set to the same value, or unset in both)
    ends the same: no other variable reaches it. *)
Theorem overlay_field_locality env1 env2 cfg cfg1 out1 cfg2 out2 i stype :
  LoadEnvironmentVariables ParseFloat env1 cfg = Returned cfg1 out1 →
  LoadEnvironmentVariables ParseFloat env2 cfg = Returned cfg2 out2 →
  ConfigType !! i = Some stype →
  env1 !! EnvName stype = env2 !! EnvName stype →
  cfg1 !! i = cfg2 !! i.
Proof.
  intros H1 H2 Ht Hsame.
  destruct (LoadEnvironmentVariables_returned _ _ _ _ _ _ _ H1 Ht) as (v & Hv & _ & -> & _).
  destruct (LoadEnvironmentVariables_returned _ _ _ _ _ _ _ H2 Ht) as (u & Hu & _ & -> & _).
  rewrite Hv in Hu. injection Hu as <-.
  by rewrite (overlayField_env _ env1 env2).
Qed.

(** X6.  The overlay reads the variables of the exported fields and no
    other: two environments that agree on them give the same record, the
    same output and the same ending. *)
Theorem overlay_ignores_other_variables env1 env2 cfg :
  (∀ stype, stype ∈ ConfigType → reflect.CanSet stype = true →
     env1 !! EnvName stype = env2 !! EnvName stype) →
  LoadEnvironmentVariables ParseFloat env1 cfg = LoadEnvironmentVariables ParseFloat env2 cfg.
Proof. intros Hsame. by apply forRange_env. Qed.

Lemma overlay_keeps_types_aux env cfg :
  WellTyped cfg → WellTyped (final (LoadEnvironmentVariables ParseFloat env cfg)).
Proof. apply forRange_TypeOf. Qed.

(** X7.  The overlay keeps the record well typed, however it ends. *)
Theorem overlay_keeps_types env cfg :
  WellTyped cfg → WellTyped (final (LoadEnvironmentVariables ParseFloat env cfg)).
Proof. apply forRange_TypeOf. Qed.

(** X8.  Everything the overlay prints is about an exported field whose
    variable is set: for a list of strings the message, and for a [*bool],
    [*int] or [*float32] field the warning of the parser of that type,
    which rejected the value, with the field's name, the value and the
    parser's error. *)
Theorem overlay_output_kinds env cfg o :
  o ∈ printed (LoadEnvironmentVariables ParseFloat env cfg) →
  ∃ stype value,
    stype ∈ ConfigType ∧ reflect.CanSet stype = true ∧
    env !! EnvName stype = Some value ∧
    ((reflect.Type_ stype = reflect.Slice (reflect.Basic reflect.TString) ∧
      o = fmt.Println "cannot set gamemode via environment variables yet") ∨
     (reflect.Type_ stype = reflect.Ptr (reflect.Basic reflect.TBool) ∧
      ∃ e, o = warning "boolean" stype value e ∧ (strconv.ParseBool value).2 = Some e) ∨
     (reflect.Type_ stype = reflect.Ptr (reflect.Basic reflect.TInt) ∧
      ∃ e, o = warning "integer" stype value e ∧ (strconv.Atoi value).2 = Some e) ∨
     (reflect.Type_ stype = reflect.Ptr (reflect.Basic reflect.TFloat32) ∧
      ∃ e, o = warning "float" stype value e ∧ (ParseFloat value).2 = Some e)).
Proof.
  intros Ho.
  apply forRange_printed_by in Ho as [Ho|(j & stype & v & _ & Ht & _ & Ho)];
    [by apply elem_of_nil in Ho| |apply NoDup_seq].
  destruct (overlayField_cases ParseFloat env stype v) as [E|(value & Hc & He & E)];
    rewrite E in Ho; [by apply elem_of_nil in Ho|].
  apply list_elem_of_lookup_2 in Ht.
  destruct (ConfigType_TypeString stype Ht) as (Hstrings & Hbool & Hint & Hfloat).
  exists stype, value. repeat split; try done.
  apply switchType_printed in Ho as [[? ?]|[[? ?]|[[? ?]|[? ?]]]]; auto 6.
Qed.

(** X9.  In a run that returns, a [*int] or [*float32] field whose
    variable does not parse has its warning printed, with the parser's
    error. *)
Theorem unparsable_numbers_are_warned env cfg cfg' out i stype value e :
  LoadEnvironmentVariables ParseFloat env cfg = Returned cfg' out →
  ConfigType !! i = Some stype → reflect.CanSet stype = true →
  env !! EnvName stype = Some value →
  (reflect.Type_ stype = reflect.Ptr (reflect.Basic reflect.TInt) →
   (strconv.Atoi value).2 = Some e → warning "integer" stype value e ∈ out) ∧
  (reflect.Type_ stype = reflect.Ptr (reflect.Basic reflect.TFloat32) →
   (ParseFloat value).2 = Some e → warning "float" stype value e ∈ out).
Proof.
  intros Hr Ht Hc He.
  destruct (LoadEnvironmentVariables_returned _ _ _ _ _ _ _ Hr Ht) as (v & _ & _ & _ & Hout).
  rewrite (overlayField_set _ _ _ value) in Hout by done.
  split; intros Hs Hp; apply Hout.
  - destruct (strconv.Atoi value) as [n ?] eqn:E. cbn in Hp. subst.
    erewrite switchType_int_rejected by done. cbn. set_solver.
  - destruct (ParseFloat value) as [x ?] eqn:E. cbn in Hp. subst.
    erewrite switchType_float_rejected by done. cbn. set_solver.
Qed.

(** X10.  A variable set to the empty string, in a run that returns on a
    well-typed record: a [*string] field becomes the empty string (present,
    not nil), a [*bool] field becomes [false], a [*int] field is left as it
    was. *)
Theorem empty_value_policy env cfg cfg' out i stype :
  WellTyped cfg →
  LoadEnvironmentVariables ParseFloat env cfg = Returned cfg' out →
  ConfigType !! i = Some stype → reflect.CanSet stype = true →
  env !! EnvName stype = Some EmptyString →
  (reflect.Type_ stype = reflect.Ptr (reflect.Basic reflect.TString) →
   cfg' !! i = Some (reflect.PtrString (Some EmptyString))) ∧
  (reflect.Type_ stype = reflect.Ptr (reflect.Basic reflect.TBool) →
   cfg' !! i = Some (reflect.PtrBool (Some false))) ∧
  (reflect.Type_ stype = reflect.Ptr (reflect.Basic reflect.TInt) →
   cfg' !! i = cfg !! i).
Proof.
  intros Hwf Hr Ht Hc He.
  destruct (LoadEnvironmentVariables_returned _ _ _ _ _ _ _ Hr Ht) as (v & Hv & _ & -> & _).
  destruct (WellTyped_lookup cfg i stype Hwf Ht) as (v' & Hv' & Hty).
  rewrite Hv in Hv'. injection Hv' as <-.
  rewrite (overlayField_set _ _ _ EmptyString) by done.
  split; [|split]; intros Hs.
  - by rewrite switchType_string.
  - by rewrite switchType_bool.
  - rewrite Hv. by erewrite switchType_int_rejected.
Qed.

End OverlayMore.

(** X11.  Every exported field of [Config] has a key in the file, its
    variable is [SAMP_] and that key in upper case, and no two fields have
    the same variable. *)
Theorem variables_name_fields :
  (∀ stype, stype ∈ ConfigType → reflect.CanSet stype = true →
     ∃ key, json.fieldKey stype = Some key ∧
            EnvName stype = "SAMP_" +:+ strings.ToUpper key) ∧
  (∀ i j si sj, ConfigType !! i = Some si → ConfigType !! j = Some sj →
     EnvName si = EnvName sj → i = j).
Proof.
  split.
  - apply (proj1 (Forall_forall
                    (λ stype, reflect.CanSet stype = true →
                       ∃ key, json.fieldKey stype = Some key ∧
                              EnvName stype = "SAMP_" +:+ strings.ToUpper key)
                    ConfigType)).
    unfold ConfigType.
    repeat (constructor;
            [first [by intros [=] | intros _; eexists; split; reflexivity]|]).
    constructor.
  - intros i j si sj Hi Hj Hname.
    apply (NoDup_lookup _ i j (EnvName si) EnvName_NoDup).
    + by rewrite list_lookup_fmap, Hi.
    + by rewrite list_lookup_fmap, Hj, Hname.
Qed.

(** ** The loader and [NewConfigFromEnvironment] *)

Section LoaderMore.

Context {Plugin : Type}.
Variable filepath_Join : string → string → string.
Variable json_Unmarshal yaml_Unmarshal :
  string → Config Plugin → Config Plugin * option errors.error.

Implicit Types (fs : gmap string Node) (cfg : Config Plugin).
Implicit Types (env : gmap string string).

(** X12.  Without a [samp.json], a [samp.yaml] in the directory is what is
    loaded: the result is the decoding of that file, and the JSON decoder
    has no part in it. *)
Theorem yaml_is_the_fallback fs dir :
  Exists fs (filepath_Join dir "samp.json") = false →
  Exists fs (filepath_Join dir "samp.yaml") = true →
  ConfigFromDirectory filepath_Join json_Unmarshal yaml_Unmarshal fs dir
    = ConfigFromYAML yaml_Unmarshal fs (filepath_Join dir "samp.yaml") ∧
  (∀ contents cfg,
     fs !! filepath_Join dir "samp.yaml" = Some (Readable contents) →
     yaml_Unmarshal contents zeroConfig = (cfg, None) →
     ConfigFromDirectory filepath_Join json_Unmarshal yaml_Unmarshal fs dir = (cfg, None)) ∧
  (∀ json_Unmarshal',
     ConfigFromDirectory filepath_Join json_Unmarshal' yaml_Unmarshal fs dir
       = ConfigFromDirectory filepath_Join json_Unmarshal yaml_Unmarshal fs dir).
Proof.
  intros Hj Hy. unfold ConfigFromDirectory. rewrite Hj, Hy.
  split; [done|]. split; [|done].
  intros contents cfg Hf Hd. unfold ConfigFromYAML.
  by rewrite (ReadFile_readable _ _ _ Hf), Hd.
Qed.

(** X13.  The errors of [ConfigFromDirectory] are three: the fixed one for
    a directory without either file, and the wrapped failure to read or to
    decode the file chosen.  An error of a decoder or of the operating
    system never comes out bare, and with the first two the record is the
    zero record. *)
Theorem loader_errors fs dir cfg err :
  ConfigFromDirectory filepath_Join json_Unmarshal yaml_Unmarshal fs dir = (cfg, Some err) →
  (err = errors.New "directory does not contain a samp.json or samp.yaml file" ∧
   cfg = zeroConfig) ∨
  (∃ e, err = errors.Wrap e "failed to read samp.json" ∧ cfg = zeroConfig) ∨
  (∃ e, err = errors.Wrap e "failed to unmarshal samp.json").
Proof.
  unfold ConfigFromDirectory, ConfigFromJSON, ConfigFromYAML.
  destruct (Exists fs (filepath_Join dir "samp.json")).
  - destruct (ReadFile fs _) as [contents [e|]]; [intros [= <- <-]; eauto|].
    destruct (json_Unmarshal contents zeroConfig) as [cfg1 [e|]]; [|done].
    intros [= <- <-]. eauto.
  - destruct (Exists fs (filepath_Join dir "samp.yaml")); [|intros [= <- <-]; eauto].
    destruct (ReadFile fs _) as [contents [e|]]; [intros [= <- <-]; eauto|].
    destruct (yaml_Unmarshal contents zeroConfig) as [cfg1 [e|]]; [|done].
    intros [= <- <-]. eauto.
Qed.

(** X14.  [ConfigFromDirectory] returns no error exactly when the file it
    chooses, [samp.json] if it is there and [samp.yaml] otherwise, can be
    read and its decoder accepts the contents. *)
Theorem loader_succeeds_iff fs dir :
  (ConfigFromDirectory filepath_Join json_Unmarshal yaml_Unmarshal fs dir).2 = None ↔
  ∃ contents,
    (fs !! filepath_Join dir "samp.json" = Some (Readable contents) ∧
     (json_Unmarshal contents zeroConfig).2 = None) ∨
    (fs !! filepath_Join dir "samp.json" = None ∧
     fs !! filepath_Join dir "samp.yaml" = Some (Readable contents) ∧
     (yaml_Unmarshal contents zeroConfig).2 = None).
Proof.
  unfold ConfigFromDirectory, ConfigFromJSON, ConfigFromYAML, Exists, ReadFile.
  generalize (@zeroConfig Plugin). intros zero.
  destruct (fs !! filepath_Join dir "samp.json") as [[contents|e]|]; cbn.
  - destruct (json_Unmarshal contents zero) as [cfg [e|]] eqn:E; cbn; split.
    + done.
    + intros (c & [[[= <-] H]|[[=] _]]). by rewrite E in H.
    + intros _. exists contents. left. by rewrite E.
    + done.
  - split; [done|]. by intros (c & [[[=] _]|[[=] _]]).
  - destruct (fs !! filepath_Join dir "samp.yaml") as [[contents|e]|]; cbn.
    + destruct (yaml_Unmarshal contents zero) as [cfg [e|]] eqn:E; cbn; split.
      * done.
      * intros (c & [[[=] _]|(_ & [= <-] & H)]). by rewrite E in H.
      * intros _. exists contents. right. by rewrite E.
      * done.
    + split; [done|]. by intros (c & [[[=] _]|(_ & [=] & _)]).
    + split; [done|]. by intros (c & [[[=] _]|(_ & [=] & _)]).
Qed.

Variable ParseFloat : string → reflect.float64 * option strconv.NumError.

(** X15.  A record [NewConfigFromEnvironment] returns without error has the
    directory it was asked for in [dir], whatever the file and the
    environment hold. *)
Theorem NewConfigFromEnvironment_records_dir fs env dir out cfg' i :
  NewConfigFromEnvironment filepath_Join json_Unmarshal yaml_Unmarshal fs ParseFloat env dir
    = (out, Normal (cfg', None)) →
  FieldByName "dir" = Some i →
  cfg' !! i = Some (reflect.PtrString (Some dir)).
Proof.
  intros Hnew Hi. vm_compute in Hi. injection Hi as <-.
  unfold NewConfigFromEnvironment in Hnew.
  destruct (ConfigFromDirectory _ _ _ _ _) as [cfg [e|]]; [done|].
  destruct (LoadEnvironmentVariables _ _ _) as [cfg1 out1|] eqn:Hr; [|done].
  injection Hnew as <- <-.
  destruct (ConfigType !! 0) as [stype|] eqn:Ht; [|done].
  destruct (LoadEnvironmentVariables_returned _ _ _ _ _ _ _ Hr Ht) as (v & Hv & _ & -> & _).
  vm_compute in Ht. injection Ht as <-.
  rewrite overlayField_unexported by done. cbn [fst]. rewrite <- Hv.
  unfold setField. replace (FieldByName "dir") with (Some 0) by reflexivity.
  apply list_lookup_insert_eq. apply lookup_lt_Some in Hv.
  unfold setField in Hv. replace (FieldByName "dir") with (Some 0) in Hv by reflexivity.
  by rewrite length_insert in Hv.
Qed.

(** X16.  When the file loads as a well-typed record, [SAMP_PLUGINS] is not
    set and [SAMP_STREAM_DISTANCE] is not set, [NewConfigFromEnvironment]
    returns a well-typed record and no error, and the environment has
    overridden the file: a [*string] field whose variable is set holds the
    variable's value, a [*int] or [*bool] field the parsed value. *)
Theorem NewConfigFromEnvironment_succeeds fs env dir cfg :
  ConfigFromDirectory filepath_Join json_Unmarshal yaml_Unmarshal fs dir = (cfg, None) →
  WellTyped cfg →
  env !! "SAMP_PLUGINS" = None → env !! "SAMP_STREAM_DISTANCE" = None →
  ∃ cfg' out,
    NewConfigFromEnvironment filepath_Join json_Unmarshal yaml_Unmarshal fs ParseFloat env dir
      = (out, Normal (cfg', None)) ∧
    WellTyped cfg' ∧
    ∀ i stype value,
      ConfigType !! i = Some stype → reflect.CanSet stype = true →
      env !! EnvName stype = Some value →
      (reflect.Type_ stype = reflect.Ptr (reflect.Basic reflect.TString) →
       cfg' !! i = Some (reflect.PtrString (Some value))) ∧
      (reflect.Type_ stype = reflect.Ptr (reflect.Basic reflect.TInt) →
       ∀ n, strconv.Atoi value = (n, None) → cfg' !! i = Some (reflect.PtrInt (Some n))) ∧
      (reflect.Type_ stype = reflect.Ptr (reflect.Basic reflect.TBool) →
       ∀ b, strconv.ParseBool value = (b, None) → cfg' !! i = Some (reflect.PtrBool (Some b))).
Proof.
  intros Hload Hwf Hplugins Hdist.
  pose proof (WellTyped_setField_dir cfg dir Hwf) as Hwf1.
  set (cfg1 := setField "dir" (reflect.PtrString (Some dir)) cfg) in *.
  assert (panicked (LoadEnvironmentVariables ParseFloat env cfg1) = false) as Hp.
  { apply LoadEnvironmentVariables_returns; try done.
    intros ? ? _ _ Hd. by rewrite Hdist in Hd. }
  apply Outcome_returned in Hp.
  exists (final (LoadEnvironmentVariables ParseFloat env cfg1)),
         (printed (LoadEnvironmentVariables ParseFloat env cfg1)).
  split; [|split].
  - unfold NewConfigFromEnvironment. rewrite Hload. fold cfg1. by rewrite Hp.
  - by apply overlay_keeps_types_aux.
  - intros i stype value Ht Hc He.
    destruct (LoadEnvironmentVariables_returned _ _ _ _ _ _ _ Hp Ht) as (v & Hv & _ & -> & _).
    destruct (WellTyped_lookup cfg1 i stype Hwf1 Ht) as (v' & Hv' & Hty).
    rewrite Hv in Hv'. injection Hv' as <-.
    rewrite (overlayField_set _ _ _ value) by done.
    split; [|split].
    + intros Hs. by rewrite switchType_string.
    + intros Hs n Hn. by erewrite switchType_int.
    + intros Hs b Hb. rewrite switchType_bool by done. by rewrite Hb.
Qed.

(** X17.  [NewConfigFromEnvironment] returns an error exactly when
    [ConfigFromDirectory] does: then it returns that record and that error,
    and the overlay has not run (nothing is printed). *)
Theorem NewConfigFromEnvironment_error_iff fs env dir out cfg' e :
  NewConfigFromEnvironment filepath_Join json_Unmarshal yaml_Unmarshal fs ParseFloat env dir
    = (out, Normal (cfg', Some e)) ↔
  ConfigFromDirectory filepath_Join json_Unmarshal yaml_Unmarshal fs dir = (cfg', Some e) ∧
  out = [].
Proof.
  unfold NewConfigFromEnvironment.
  destruct (ConfigFromDirectory _ _ _ _ _) as [cfg [e'|]].
  - split; [by intros [= <- <- <-]|by intros [[= <- <-] ->]].
  - split; [|by intros [[=] _]].
    by destruct (LoadEnvironmentVariables _ _ _).
Qed.

End LoaderMore.

(** ** These properties on concrete inputs *)

(** X1: [SAMP_PORT=9999] over a file with [port] 7777. *)
Lemma overlay_overrides_witness :
  final (LoadEnvironmentVariables sampleParseFloat sampleEnv fileConfig) !! 8
    = Some (reflect.PtrInt (Some 9999%Z)).
Proof.
  assert (panicked (LoadEnvironmentVariables sampleParseFloat sampleEnv fileConfig) = false)
    as Hp by (vm_compute; reflexivity).
  destruct (overlay_overrides sampleParseFloat sampleEnv fileConfig
              (final (LoadEnvironmentVariables sampleParseFloat sampleEnv fileConfig))
              (printed (LoadEnvironmentVariables sampleParseFloat sampleEnv fileConfig))
              8 ltac:(field_at 8) "9999")
    as (_ & Hint & _);
    [vm_compute; reflexivity|exact (Outcome_returned _ Hp)|reflexivity|reflexivity
    |vm_compute; reflexivity|].
  apply Hint; vm_compute; reflexivity.
Defined.

(** X2: [SAMP_GAMEMODES] set. *)
Lemma string_lists_are_not_overlaid_witness :
  final (LoadEnvironmentVariables sampleParseFloat {[ "SAMP_GAMEMODES" := "grandlarc" ]}
           fileConfig) !! 4 = fileConfig !! 4 ∧
  fmt.Println "cannot set gamemode via environment variables yet"
    ∈ printed (LoadEnvironmentVariables sampleParseFloat {[ "SAMP_GAMEMODES" := "grandlarc" ]}
                 fileConfig).
Proof.
  assert (panicked (LoadEnvironmentVariables sampleParseFloat
                      {[ "SAMP_GAMEMODES" := "grandlarc" ]} fileConfig) = false)
    as Hp by (vm_compute; reflexivity).
  destruct (string_lists_are_not_overlaid sampleParseFloat
              {[ "SAMP_GAMEMODES" := "grandlarc" ]} fileConfig 4 ltac:(field_at 4) "grandlarc")
    as (Hsame & Hout);
    [reflexivity|reflexivity|reflexivity|vm_compute; reflexivity|].
  split; [exact Hsame|]. exact (Hout _ _ (Outcome_returned _ Hp)).
Defined.

(** X3: [SAMP_PLUGINS] set. *)
Lemma overlay_panics_iff_witness :
  panicked (LoadEnvironmentVariables sampleParseFloat {[ "SAMP_PLUGINS" := "crashdetect" ]}
              fileConfig) = true.
Proof.
  apply (overlay_panics_iff sampleParseFloat {[ "SAMP_PLUGINS" := "crashdetect" ]}
           fileConfig 25); [vm_compute; reflexivity|reflexivity|].
  left. vm_compute. eauto.
Defined.

(** X4: an environment with other variables only. *)
Lemma overlay_without_variables_witness :
  LoadEnvironmentVariables sampleParseFloat {[ "PATH" := "/usr/bin"; "HOME" := "/root" ]}
    fileConfig = Returned fileConfig [].
Proof.
  apply overlay_without_variables; [vm_compute; reflexivity|].
  intros stype Hin _. revert stype Hin.
  apply (proj1 (Forall_forall
                  (λ stype, ({[ "PATH" := "/usr/bin"; "HOME" := "/root" ]}
                               : gmap string string) !! EnvName stype = None)
                  ConfigType)).
  apply (bool_decide_unpack _). vm_compute. exact I.
Defined.

(** X5: [SAMP_PORT=9999] with and without [SAMP_HOSTNAME]. *)
Lemma overlay_field_locality_witness :
  final (LoadEnvironmentVariables sampleParseFloat {[ "SAMP_PORT" := "9999" ]} fileConfig) !! 8
  = final (LoadEnvironmentVariables sampleParseFloat
             {[ "SAMP_PORT" := "9999"; "SAMP_HOSTNAME" := "test" ]} fileConfig) !! 8.
Proof.
  eapply (overlay_field_locality sampleParseFloat
            {[ "SAMP_PORT" := "9999" ]}
            {[ "SAMP_PORT" := "9999"; "SAMP_HOSTNAME" := "test" ]}
            fileConfig _ (printed _) _ (printed _) 8 ltac:(field_at 8)).
  - apply Outcome_returned. vm_compute. reflexivity.
  - apply Outcome_returned. vm_compute. reflexivity.
  - reflexivity.
  - vm_compute. reflexivity.
Defined.

(** X6: the empty environment and one with [PATH]. *)
Lemma overlay_ignores_other_variables_witness :
  LoadEnvironmentVariables sampleParseFloat ∅ fileConfig
  = LoadEnvironmentVariables sampleParseFloat {[ "PATH" := "/usr/bin" ]} fileConfig.
Proof.
  apply overlay_ignores_other_variables.
  intros stype Hin _. revert stype Hin.
  apply (proj1 (Forall_forall
                  (λ stype, (∅ : gmap string string) !! EnvName stype
                            = ({[ "PATH" := "/usr/bin" ]} : gmap string string)
                                !! EnvName stype)
                  ConfigType)).
  apply (bool_decide_unpack _). vm_compute. exact I.
Defined.

(** X7: the record the sample environment leaves. *)
Lemma overlay_keeps_types_witness :
  WellTyped (final (LoadEnvironmentVariables sampleParseFloat sampleEnv fileConfig)).
Proof. apply overlay_keeps_types. vm_compute. reflexivity. Defined.

(** X8 and X9: the warning for [SAMP_MAXPLAYERS=notanumber]. *)
Lemma overlay_output_kinds_witness :
  let o := warning "integer" ltac:(field_at 10) "notanumber"
             (strconv.syntaxError "Atoi" "notanumber") in
  ∃ stype value,
    stype ∈ ConfigType ∧ reflect.CanSet stype = true ∧
    sampleEnv !! EnvName stype = Some value ∧
    ((reflect.Type_ stype = reflect.Slice (reflect.Basic reflect.TString) ∧
      o = fmt.Println "cannot set gamemode via environment variables yet") ∨
     (reflect.Type_ stype = reflect.Ptr (reflect.Basic reflect.TBool) ∧
      ∃ e, o = warning "boolean" stype value e ∧ (strconv.ParseBool value).2 = Some e) ∨
     (reflect.Type_ stype = reflect.Ptr (reflect.Basic reflect.TInt) ∧
      ∃ e, o = warning "integer" stype value e ∧ (strconv.Atoi value).2 = Some e) ∨
     (reflect.Type_ stype = reflect.Ptr (reflect.Basic reflect.TFloat32) ∧
      ∃ e, o = warning "float" stype value e ∧ (sampleParseFloat value).2 = Some e)).
Proof.
  intros o.
  apply (overlay_output_kinds sampleParseFloat sampleEnv fileConfig o).
  vm_compute. apply list_elem_of_here.
Defined.

Lemma unparsable_numbers_are_warned_witness :
  warning "integer" ltac:(field_at 10) "notanumber" (strconv.syntaxError "Atoi" "notanumber")
    ∈ printed (LoadEnvironmentVariables sampleParseFloat sampleEnv fileConfig).
Proof.
  assert (panicked (LoadEnvironmentVariables sampleParseFloat sampleEnv fileConfig) = false)
    as Hp by (vm_compute; reflexivity).
  destruct (unparsable_numbers_are_warned sampleParseFloat sampleEnv fileConfig
              (final (LoadEnvironmentVariables sampleParseFloat sampleEnv fileConfig))
              (printed (LoadEnvironmentVariables sampleParseFloat sampleEnv fileConfig))
              10 ltac:(field_at 10) "notanumber" (strconv.syntaxError "Atoi" "notanumber")
              (Outcome_returned _ Hp))
    as (Hint & _); [reflexivity|reflexivity|vm_compute; reflexivity|].
  apply Hint; vm_compute; reflexivity.
Defined.

(** X10: [SAMP_HOSTNAME], [SAMP_ANNOUNCE] and [SAMP_PORT] set to nothing. *)
Lemma empty_value_policy_witness :
  let env : gmap string string :=
    {[ "SAMP_HOSTNAME" := ""; "SAMP_ANNOUNCE" := ""; "SAMP_PORT" := "" ]} in
  final (LoadEnvironmentVariables sampleParseFloat env fileConfig) !! 9
    = Some (reflect.PtrString (Some EmptyString)) ∧
  final (LoadEnvironmentVariables sampleParseFloat env fileConfig) !! 17
    = Some (reflect.PtrBool (Some false)) ∧
  final (LoadEnvironmentVariables sampleParseFloat env fileConfig) !! 8
    = fileConfig !! 8.
Proof.
  intros env.
  assert (panicked (LoadEnvironmentVariables sampleParseFloat env fileConfig) = false)
    as Hp by (vm_compute; reflexivity).
  pose proof (Outcome_returned _ Hp) as Hr.
  assert (WellTyped fileConfig) as Hwf by (vm_compute; reflexivity).
  destruct (empty_value_policy sampleParseFloat env fileConfig
              (final (LoadEnvironmentVariables sampleParseFloat env fileConfig))
              (printed (LoadEnvironmentVariables sampleParseFloat env fileConfig))
              9 ltac:(field_at 9) Hwf Hr)
    as (Hs & _ & _); [reflexivity|reflexivity|vm_compute; reflexivity|].
  destruct (empty_value_policy sampleParseFloat env fileConfig
              (final (LoadEnvironmentVariables sampleParseFloat env fileConfig))
              (printed (LoadEnvironmentVariables sampleParseFloat env fileConfig))
              17 ltac:(field_at 17) Hwf Hr)
    as (_ & Hb & _); [reflexivity|reflexivity|vm_compute; reflexivity|].
  destruct (empty_value_policy sampleParseFloat env fileConfig
              (final (LoadEnvironmentVariables sampleParseFloat env fileConfig))
              (printed (LoadEnvironmentVariables sampleParseFloat env fileConfig))
              8 ltac:(field_at 8) Hwf Hr)
    as (_ & _ & Hi); [reflexivity|reflexivity|vm_compute; reflexivity|].
  split; [|split]; [apply Hs|apply Hb|apply Hi]; reflexivity.
Defined.

(** X12: a directory with a well-formed [samp.yaml] only. *)
Lemma yaml_is_the_fallback_witness :
  ConfigFromDirectory sampleJoin sampleJSON sampleYAML
    {[ "/srv/d/samp.yaml" := Readable "port: 8888" ]} "/srv/d"
  = (setField "Port" (reflect.PtrInt (Some 8888%Z)) zeroConfig, None).
Proof.
  destruct (yaml_is_the_fallback sampleJoin sampleJSON sampleYAML
              {[ "/srv/d/samp.yaml" := Readable "port: 8888" ]} "/srv/d")
    as (_ & Hdecoded & _); [vm_compute; reflexivity|vm_compute; reflexivity|].
  eapply Hdecoded; vm_compute; reflexivity.
Defined.

(** X13: [/srv/b], with its malformed [samp.yaml]. *)
Lemma loader_errors_witness :
  let err := errors.Wrap (errors.foreign "yaml: did not find expected node content")
               "failed to unmarshal samp.json" in
  (err = errors.New "directory does not contain a samp.json or samp.yaml file" ∧
   zeroConfig (Plugin:=string) = zeroConfig) ∨
  (∃ e, err = errors.Wrap e "failed to read samp.json" ∧
        zeroConfig (Plugin:=string) = zeroConfig) ∨
  (∃ e, err = errors.Wrap e "failed to unmarshal samp.json").
Proof.
  intros err.
  apply (loader_errors sampleJoin sampleJSON sampleYAML sampleFS "/srv/b" zeroConfig err).
  vm_compute. reflexivity.
Defined.

(** X15 and X16: [/srv/c] with [SAMP_HOSTNAME=test]. *)
Lemma NewConfigFromEnvironment_records_dir_witness :
  setField "Hostname" (reflect.PtrString (Some "test"))
    (setField "dir" (reflect.PtrString (Some "/srv/c"))
       (setField "Port" (reflect.PtrInt (Some 7777%Z)) (zeroConfig (Plugin:=string)))) !! 0
  = Some (reflect.PtrString (Some "/srv/c")).
Proof.
  apply (NewConfigFromEnvironment_records_dir sampleJoin sampleJSON sampleYAML
           sampleParseFloat sampleFS {[ "SAMP_HOSTNAME" := "test" ]} "/srv/c" []);
    vm_compute; reflexivity.
Defined.

Lemma NewConfigFromEnvironment_succeeds_witness :
  ∃ cfg' out,
    NewConfigFromEnvironment sampleJoin sampleJSON sampleYAML sampleFS sampleParseFloat
      {[ "SAMP_HOSTNAME" := "test" ]} "/srv/c" = (out, Normal (cfg', None)) ∧
    cfg' !! 9 = Some (reflect.PtrString (Some "test")).
Proof.
  destruct (NewConfigFromEnvironment_succeeds sampleJoin sampleJSON sampleYAML sampleParseFloat
              sampleFS {[ "SAMP_HOSTNAME" := "test" ]} "/srv/c"
              (setField "Port" (reflect.PtrInt (Some 7777%Z)) zeroConfig))
    as (cfg' & out & Hnew & _ & Hover); try (vm_compute; reflexivity).
  exists cfg', out. split; [exact Hnew|].
  destruct (Hover 9 ltac:(field_at 9) "test") as (Hs & _);
    [reflexivity|reflexivity|vm_compute; reflexivity|].
  apply Hs. reflexivity.
Defined.

(** ** C3: the policy for [*bool] fields and the panic at [Plugins] *)

(** The [*bool] fields of [Config] are declared after [Plugins]. *)
Lemma bool_fields_follow_Plugins i stype :
  ConfigType !! i = Some stype →
  reflect.Type_ stype = reflect.Ptr (reflect.Basic reflect.TBool) →
  ∃ k, FieldByName "Plugins" = Some k ∧ k < i.
Proof.
  intros H Hb. exists 6. split; [reflexivity|].
  do 45 (destruct i as [|i];
         [injection H as <-; vm_compute in Hb; first [discriminate Hb | lia]|]).
  done.
Qed.

Section StoppedWalk.

Context {Plugin : Type}.
Variable ParseFloat : string → reflect.float64 * option strconv.NumError.
Variable env : gmap string string.

Implicit Types (stype : reflect.StructField) (v : reflect.Value Plugin).
Implicit Types (cfg : Config Plugin).

(** A walk whose body panics on field [k] is the walk over the fields up
    to [k]. *)
Lemma LoadEnvironmentVariables_stops cfg k stype v p :
  ConfigType !! k = Some stype → cfg !! k = Some v →
  (overlayField ParseFloat env stype v).2 = Panic p →
  LoadEnvironmentVariables ParseFloat env cfg
    = forRange ParseFloat env ConfigType (seq 0 (S k)) cfg [].
Proof.
  intros Ht Hv Hp. unfold LoadEnvironmentVariables.
  pose proof (lookup_lt_Some _ _ _ Ht) as Hlt.
  replace (length ConfigType) with (S k + (length ConfigType - S k)) by lia.
  rewrite seq_app, forRange_app.
  destruct (forRange ParseFloat env ConfigType (seq 0 (S k)) cfg []) as [c o|q c o] eqn:E;
    [|done].
  destruct (forRange_returned ParseFloat env _ _ (NoDup_seq _ _) _ _ _ _ k E)
    as (st & u & Ht' & Hu & Hn & _); [apply elem_of_seq; lia|].
  rewrite Ht in Ht'. injection Ht' as <-. rewrite Hv in Hu. injection Hu as <-.
  by rewrite Hp in Hn.
Qed.

(** A warning names its field. *)
Lemma warning_field what1 what2 st1 st2 value1 value2 e1 e2 :
  warning what1 st1 value1 e1 = warning what2 st2 value2 e2 →
  reflect.Name st1 = reflect.Name st2.
Proof. unfold warning. intros H. injection H as _ Hname _. exact Hname. Qed.

(** C3 (the code departs from it).  The claim: a [*bool] field whose
    variable is set to a value [strconv.ParseBool] rejects ends up [false],
    with a warning printed.  The code: every [*bool] field is declared after
    [Plugins], so with [SAMP_PLUGINS] set the overlay panics before it
    reaches the field; the field keeps what it held and its warning is not
    printed. *)
Theorem bool_field_is_not_reached_after_Plugins cfg i stype plugins value :
  WellTyped cfg →
  env !! "SAMP_PLUGINS" = Some plugins →
  ConfigType !! i = Some stype →
  reflect.Type_ stype = reflect.Ptr (reflect.Basic reflect.TBool) →
  reflect.CanSet stype = true →
  env !! EnvName stype = Some value →
  (strconv.ParseBool value).2 ≠ None →
  ∃ cfg' out,
    LoadEnvironmentVariables ParseFloat env cfg =
      Panicked "unknown kind '[]runtime.Plugin'" cfg' out ∧
    cfg' !! i = cfg !! i ∧
    ∀ e, warning "boolean" stype value e ∉ out.
Proof.
  intros Hwf Hplugins Ht Hbool Hc He Hrej.
  destruct (bool_fields_follow_Plugins i stype Ht Hbool) as (k & Hk & Hki).
  vm_compute in Hk. injection Hk as <-.
  destruct (ConfigType !! 6) as [st6|] eqn:Ht6; [|done].
  destruct (WellTyped_lookup cfg 6 st6 Hwf Ht6) as (v6 & Hv6 & _).
  assert (overlayField ParseFloat env st6 v6 =
          (v6, [], Panic "unknown kind '[]runtime.Plugin'")) as Hbody.
  { pose proof Ht6 as Ht6'. vm_compute in Ht6'. injection Ht6' as <-.
    rewrite (overlayField_set _ _ _ plugins) by done.
    by rewrite switchType_plugins. }
  destruct (LoadEnvironmentVariables_reached ParseFloat env cfg 6 st6 v6 Ht6 Hv6)
    as [_ Hpanic].
  { intros k Hk. apply fields_normal; try done.
    - intros Hf. vm_compute in Hf. injection Hf as <-. lia.
    - intros Hf. vm_compute in Hf. injection Hf as <-. lia.
    - apply lookup_lt_Some in Ht6. lia. }
  rewrite Hbody in Hpanic. destruct (Hpanic _ eq_refl) as (cfg' & out & Hr).
  exists cfg', out. split; [done|].
  pose proof (LoadEnvironmentVariables_stops cfg 6 st6 v6 _ Ht6 Hv6
                ltac:(by rewrite Hbody)) as Hstop.
  rewrite Hr in Hstop. split.
  - change cfg' with (final (Panicked "unknown kind '[]runtime.Plugin'" cfg' out)).
    rewrite Hstop. apply forRange_frame. rewrite elem_of_seq. lia.
  - intros e Ho.
    change out with (printed (Panicked "unknown kind '[]runtime.Plugin'" cfg' out)) in Ho.
    rewrite Hstop in Ho.
    apply forRange_printed_by in Ho as [Ho|(j & st & u & Hj & Htj & _ & Ho)];
      [by apply elem_of_nil in Ho| |apply NoDup_seq].
    apply elem_of_seq in Hj.
    destruct (overlayField_cases ParseFloat env st u) as [E|(value' & _ & _ & E)];
      rewrite E in Ho; [by apply elem_of_nil in Ho|].
    apply switchType_printed in Ho
      as [[_ Ho]|[[_ (e' & Ho & _)]|[[_ (e' & Ho & _)]|[_ (e' & Ho & _)]]]];
      [discriminate Ho|..].
    all: apply warning_field in Ho.
    all: pose proof (FieldByName_lookup i stype Ht) as Hi.
    all: pose proof (FieldByName_lookup j st Htj) as Hj'.
    all: rewrite Ho, Hj' in Hi; injection Hi as <-; lia.
Qed.

End StoppedWalk.

(** C3: [SAMP_PLUGINS=crashdetect] and [SAMP_ANNOUNCE=yes] over a file with
    [announce] true. *)
Lemma bool_field_is_not_reached_after_Plugins_witness :
  let env : gmap string string :=
    {[ "SAMP_PLUGINS" := "crashdetect"; "SAMP_ANNOUNCE" := "yes" ]} in
  ∃ cfg' out,
    LoadEnvironmentVariables sampleParseFloat env fileConfig =
      Panicked "unknown kind '[]runtime.Plugin'" cfg' out ∧
    cfg' !! 17 = fileConfig !! 17 ∧
    ∀ e, warning "boolean" ltac:(field_at 17) "yes" e ∉ out.
Proof.
  intros env.
  apply (bool_field_is_not_reached_after_Plugins sampleParseFloat env fileConfig 17
           ltac:(field_at 17) "crashdetect" "yes");
    try (vm_compute; reflexivity).
  vm_compute. discriminate.
Defined.

(** The whole outcome on that input: [announce] is still true, and nothing
    was printed. *)
Example bool_field_is_not_reached_after_Plugins_run :
  LoadEnvironmentVariables sampleParseFloat
    {[ "SAMP_PLUGINS" := "crashdetect"; "SAMP_ANNOUNCE" := "yes" ]} fileConfig
  = Panicked "unknown kind '[]runtime.Plugin'" fileConfig [] ∧
  fileConfig !! 17 = Some (reflect.PtrBool (Some true)).
Proof. vm_compute. auto. Qed.

(** The other panic cuts the policy short as well: [*bool] fields declared
    after [StreamDistance], such as [ChatLogging], with [stream_distance]
    absent from the file and [SAMP_STREAM_DISTANCE=1.5]. *)
Example bool_field_is_not_reached_after_StreamDistance_run :
  LoadEnvironmentVariables sampleParseFloat
    {[ "SAMP_STREAM_DISTANCE" := "1.5"; "SAMP_CHATLOGGING" := "yes" ]}
    (setField "ChatLogging" (reflect.PtrBool (Some true)) (zeroConfig (Plugin:=string)))
  = Panicked "reflect.Set: value of type *float64 is not assignable to type *float32"
      (setField "ChatLogging" (reflect.PtrBool (Some true)) zeroConfig) [].
Proof. vm_compute. reflexivity. Qed.
